(** * check_broken_images: the link-validation and classification pipeline

    A shallow embedding of [check_broken_images.py].  Python [str] values are
    Rocq strings whose characters are the code points below 256; Python
    exceptions are values of [exn] carried by [result]; logging, sleeping,
    HTTP traffic and file-system calls are events appended to a trace. *)

From Stdlib Require Import String Ascii List ZArith Lia Bool DecimalString
  Permutation.
Import ListNotations.
Open Scope string_scope.

(** ** Exceptions *)

Inductive exn : Type :=
| ValueError (msg : string)
| RequestException (msg : string)
| OSError (msg : string).

Definition str_exn (e : exn) : string :=
  match e with
  | ValueError m | RequestException m | OSError m => m
  end.

Definition is_RequestException (e : exn) : bool :=
  match e with
  | RequestException _ => true
  | _ => false
  end.

Inductive result (A : Type) : Type :=
| Ok (a : A)
| Raise (e : exn).
Arguments Ok {A} a.
Arguments Raise {A} e.

Definition rbind {A B} (r : result A) (k : A -> result B) : result B :=
  match r with
  | Ok a => k a
  | Raise e => Raise e
  end.

(** ** The methods of [str] the script calls *)

Module PyStr.

(** [c.lower()] on the code points below 256: the ASCII capitals and the
    Latin-1 capitals 0xC0-0xDE (0xD7, the multiplication sign, excepted)
    move up by 32. *)
Definition lower_char (c : ascii) : ascii :=
  let n := nat_of_ascii c in
  if (((65 <=? n) && (n <=? 90))
      || ((192 <=? n) && (n <=? 222) && negb (n =? 215)))%nat
  then ascii_of_nat (n + 32)
  else c.

Fixpoint lower (s : string) : string :=
  match s with
  | "" => ""
  | String c s' => String (lower_char c) (lower s')
  end.

(** [s.startswith(p)] *)
Fixpoint startswith (s p : string) {struct p} : bool :=
  match p, s with
  | "", _ => true
  | String _ _, "" => false
  | String a p', String b s' => Ascii.eqb a b && startswith s' p'
  end.

(** [sub in s] *)
Fixpoint contains (sub s : string) : bool :=
  startswith s sub
  || match s with
     | "" => false
     | String _ s' => contains sub s'
     end.

(** [c in s] for a single character *)
Fixpoint has_char (c : ascii) (s : string) : bool :=
  match s with
  | "" => false
  | String a s' => Ascii.eqb a c || has_char c s'
  end.

(** [s.find(c)]: [None] stands for -1. *)
Fixpoint find (c : ascii) (s : string) : option nat :=
  match s with
  | "" => None
  | String a s' =>
      if Ascii.eqb a c then Some 0
      else match find c s' with
           | Some i => Some (S i)
           | None => None
           end
  end.

(** [s[:n]] *)
Fixpoint slice_to (n : nat) (s : string) : string :=
  match n, s with
  | S n', String a s' => String a (slice_to n' s')
  | _, _ => ""
  end.

(** [s[n:]] *)
Fixpoint slice_from (n : nat) (s : string) : string :=
  match n, s with
  | S n', String _ s' => slice_from n' s'
  | _, _ => s
  end.

(** [s[a:b]] for non-negative [a], [b] *)
Definition slice (a b : nat) (s : string) : string :=
  slice_from a (slice_to b s).

(** [s[-n:]] for positive [n] *)
Definition slice_last (n : nat) (s : string) : string :=
  slice_from (String.length s - n) s.

(** [s.find(c, start)] *)
Definition find_from (c : ascii) (start : nat) (s : string) : option nat :=
  match find c (slice_from start s) with
  | Some i => if (start <=? String.length s)%nat then Some (start + i) else None
  | None => None
  end.

(** [s.rfind(c)] *)
Fixpoint rfind (c : ascii) (s : string) : option nat :=
  match s with
  | "" => None
  | String a s' =>
      match rfind c s' with
      | Some i => Some (S i)
      | None => if Ascii.eqb a c then Some 0 else None
      end
  end.




(** [s.split(sep, 1)] for a one-character separator: one or two parts. *)
Definition split1 (sep : ascii) (s : string) : list string :=
  match find sep s with
  | Some i => [slice_to i s; slice_from (S i) s]
  | None => [s]
  end.

(** [s.split(sep)] for a one-character separator. *)
Fixpoint split (sep : ascii) (s : string) : list string :=
  match s with
  | "" => [""]
  | String a s' =>
      if Ascii.eqb a sep then "" :: split sep s'
      else match split sep s' with
           | p :: ps => String a p :: ps
           | [] => [String a ""]
           end
  end.

(** [s.replace(c, "")] *)
Fixpoint remove_char (c : ascii) (s : string) : string :=
  match s with
  | "" => ""
  | String a s' =>
      if Ascii.eqb a c then remove_char c s' else String a (remove_char c s')
  end.

(** [s.lstrip(chars)], the set of characters given as a predicate *)
Fixpoint lstrip_by (p : ascii -> bool) (s : string) : string :=
  match s with
  | "" => ""
  | String a s' => if p a then lstrip_by p s' else s
  end.

Fixpoint rev (s : string) : string :=
  match s with
  | "" => ""
  | String a s' => rev s' ++ String a ""
  end.

Definition rstrip_by (p : ascii -> bool) (s : string) : string :=
  rev (lstrip_by p (rev s)).

(** [c.isspace()] on the code points below 256 *)
Definition isspace (c : ascii) : bool :=
  let n := nat_of_ascii c in
  (((9 <=? n) && (n <=? 13)) || ((28 <=? n) && (n <=? 32))
   || (n =? 133) || (n =? 160))%nat.

(** [s.strip()] *)
Definition strip (s : string) : string :=
  rstrip_by isspace (lstrip_by isspace s).

(** [c.isascii() and c.isalpha()] *)
Definition is_ascii_alpha (c : ascii) : bool :=
  let n := nat_of_ascii c in
  (((65 <=? n) && (n <=? 90)) || ((97 <=? n) && (n <=? 122)))%nat.

Fixpoint forall_chars (p : ascii -> bool) (s : string) : bool :=
  match s with
  | "" => true
  | String a s' => p a && forall_chars p s'
  end.

(** [str(n)] for an [int] *)
Definition str_of_Z (z : Z) : string := NilEmpty.string_of_int (Z.to_int z).

Definition str_of_nat (n : nat) : string := str_of_Z (Z.of_nat n).

Definition str_of_bool (b : bool) : string := if b then "True" else "False".

End PyStr.

(** ** [urllib.parse]: the part behind [urlparse(url).netloc] and
    [urlparse(url).path]

    The definitions follow CPython's [urlsplit] and [urlparse] (3.11) for a
    [str] argument and the default [scheme=''], [allow_fragments=True].  The
    validation of a bracketed host literal inside the netloc is the
    library's [_check_bracketed_netloc]; it needs the [ipaddress] module and
    differs between releases, so it stays a parameter. *)

Module Urllib.
Import PyStr.

Record SplitResult : Type :=
  { sr_scheme : string; sr_netloc : string; sr_url : string;
    sr_query : string; sr_fragment : string }.

Record ParseResult : Type :=
  { scheme : string; netloc : string; path : string;
    params : string; query : string; fragment : string }.

Definition uses_params : list string :=
  [""; "ftp"; "hdl"; "prospero"; "http"; "imap"; "https"; "shttp"; "rtsp";
   "rtspu"; "sip"; "sips"; "mms"; "sftp"; "tel"].

Definition scheme_chars : string :=
  "abcdefghijklmnopqrstuvwxyzABCDEFGHIJKLMNOPQRSTUVWXYZ0123456789+-.".

(** membership in [_WHATWG_C0_CONTROL_OR_SPACE] *)
Definition is_c0_control_or_space (c : ascii) : bool :=
  (nat_of_ascii c <=? 32)%nat.

Definition _UNSAFE_URL_BYTES_TO_REMOVE : list ascii :=
  ["009"; "013"; "010"]%char.

Definition _splitnetloc (url : string) (start : nat) : string * string :=
  let delim :=
    fold_left
      (fun delim c =>
         match find_from c start url with
         | Some wdelim => Nat.min delim wdelim
         | None => delim
         end)
      ["/"; "?"; "#"]%char (String.length url) in
  (slice start delim url, slice_from delim url).

(** On code points below 256 the NFKC form of a netloc never gains one of
    the characters [/?#@:], so [_checknetloc] returns normally. *)
Definition _checknetloc (netloc : string) : result unit := Ok tt.

Definition _splitparams (url : string) : string * string :=
  let cut (i : option nat) :=
    match i with
    | Some i => (slice_to i url, slice_from (S i) url)
    | None => (slice_to (String.length url - 1) url, url)
    end in
  if has_char "/" url then
    match find_from ";" (match rfind "/" url with Some j => j | None => 0 end) url with
    | Some i => cut (Some i)
    | None => (url, "")
    end
  else cut (find ";" url).

(** [a, b = s.split(sep, 1)] under the guard [sep in s] *)
Definition split_at (sep : ascii) (s : string) : string * string :=
  match split1 sep s with
  | [a; b] => (a, b)
  | _ => (s, "")
  end.


Section Parse.
Variable _check_bracketed_netloc : string -> result unit.

(** lines [i = url.find(':')] to [scheme, url = url[:i].lower(), url[i+1:]] *)
Definition split_scheme (url : string) : string * string :=
  match find ":" url with
  | Some i =>
      if (0 <? i)%nat
         && match url with String c _ => is_ascii_alpha c | "" => false end
         && forall_chars (fun c => has_char c scheme_chars) (slice_to i url)
      then (lower (slice_to i url), slice_from (S i) url)
      else ("", url)
  | None => ("", url)
  end.

Definition urlsplit (url : string) : result SplitResult :=
  let url := lstrip_by is_c0_control_or_space url in
  let url := fold_left (fun u b => remove_char b u) _UNSAFE_URL_BYTES_TO_REMOVE url in
  let '(scheme, url) := split_scheme url in
  rbind
    (if startswith url "//" then
       let '(netloc, url) := _splitnetloc url 2 in
       if (has_char "[" netloc && negb (has_char "]" netloc))
          || (has_char "]" netloc && negb (has_char "[" netloc))
       then Raise (ValueError "Invalid IPv6 URL")
       else if has_char "[" netloc && has_char "]" netloc
            then rbind (_check_bracketed_netloc netloc) (fun _ => Ok (netloc, url))
            else Ok (netloc, url)
     else Ok ("", url))
    (fun '(netloc, url) =>
       let '(url, fragment) :=
         if has_char "#" url then split_at "#" url else (url, "") in
       let '(url, query) :=
         if has_char "?" url then split_at "?" url else (url, "") in
       rbind (_checknetloc netloc) (fun _ =>
       Ok {| sr_scheme := scheme; sr_netloc := netloc; sr_url := url;
             sr_query := query; sr_fragment := fragment |})).

Definition urlparse (url : string) : result ParseResult :=
  rbind (urlsplit url) (fun sr =>
    let '(url, params) :=
      if existsb (String.eqb (sr_scheme sr)) uses_params && has_char ";" (sr_url sr)
      then _splitparams (sr_url sr)
      else (sr_url sr, "") in
    Ok {| scheme := sr_scheme sr; netloc := sr_netloc sr; path := url;
          params := params; query := sr_query sr;
          fragment := sr_fragment sr |}).
End Parse.

End Urllib.

(** ** [pathlib]: pure paths of the POSIX flavour

    [_PosixFlavour.splitroot], [parse_parts] on one [str],
    [join_parsed_parts] behind the [/] operator, [parent] and [__str__],
    after CPython 3.11.  The drive is always empty in this flavour and is
    left out; [parts] holds the components that follow the root. *)

Module Pathlib.
Import PyStr.

Record PurePath : Type := { root : string; parts : list string }.

Definition splitroot (part : string) : string * string :=
  if startswith part "/" then
    let stripped_part := lstrip_by (fun c => Ascii.eqb c "/") part in
    if (String.length part - String.length stripped_part =? 2)%nat
    then ("//", stripped_part)
    else ("/", stripped_part)
  else ("", part).

Definition parse_parts (part : string) : PurePath :=
  if part =? "" then {| root := ""; parts := [] |}
  else
    let (root, rel) := splitroot part in
    {| root := root;
       parts := filter (fun x => negb (x =? "") && negb (x =? "."))
                  (split "/" rel) |}.

(** [Path(text)] *)
Definition Path (text : string) : PurePath := parse_parts text.

(** [p / key] *)
Definition truediv (p : PurePath) (key : string) : PurePath :=
  let q := parse_parts key in
  if root q =? "" then {| root := root p; parts := parts p ++ parts q |}
  else q.

(** [p.parent] *)
Definition parent (p : PurePath) : PurePath :=
  match parts p with
  | [] => p
  | _ :: _ => {| root := root p; parts := removelast (parts p) |}
  end.

(** [str(p)] *)
Definition str (p : PurePath) : string :=
  if root p =? "" then
    match parts p with
    | [] => "."
    | _ :: _ => String.concat "/" (parts p)
    end
  else root p ++ String.concat "/" (parts p).

End Pathlib.

(** ** Effects: the trace and the monad

    Every call that leaves the interpreter ([logging], [time.sleep], a
    request through the session, a file-system call) is an event.  The trace
    holds the events in the order they were issued.  What a request or a
    file-system call answers is decided by the environment, which sees the
    trace so far. *)

Inductive level : Type := DEBUG | INFO | ERROR.

Inductive request : Type :=
| HEAD (url : string) (timeout : Z) (allow_redirects : bool)
| GET (url : string) (timeout : Z) (stream : bool) (allow_redirects : bool).

Inductive fs_op : Type :=
| Mkdir (dir : string) (parents exist_ok : bool)
| Open (file : string) (mode : string)
| Write (file : string) (data : string)
| Close (file : string).

Inductive event : Type :=
| Log (l : level) (msg : string)
| Sleep (secs : Z)
| Http (r : request)
| Fs (op : fs_op).

Definition trace : Type := list event.

(** [requests.Response]: the fields the script and [raise_for_status] read *)
Record Response : Type :=
  { status_code : Z; reason : string; resp_url : string; content : string }.

(** [requests.Session]: the answer to a request, [Raise] when the call
    raises. *)
Definition Session : Type := trace -> request -> result Response.

(** The file system: the answer to a call. *)
Definition FileSystem : Type := trace -> fs_op -> result unit.

Definition M (A : Type) : Type := trace -> result A * trace.

Definition ret {A} (a : A) : M A := fun t => (Ok a, t).

Definition bind {A B} (m : M A) (k : A -> M B) : M B :=
  fun t =>
    match m t with
    | (Ok a, t') => k a t'
    | (Raise e, t') => (Raise e, t')
    end.

Definition raise {A} (e : exn) : M A := fun t => (Raise e, t).

Definition lift {A} (r : result A) : M A := fun t => (r, t).

Definition emit (ev : event) : M unit := fun t => (Ok tt, (t ++ [ev])%list).

(** [try: body except <class> as e: handler] *)
Definition try_except {A} (body : M A) (catches : exn -> bool)
    (handler : exn -> M A) : M A :=
  fun t =>
    match body t with
    | (Ok a, t') => (Ok a, t')
    | (Raise e, t') => if catches e then handler e t' else (Raise e, t')
    end.

Declare Scope monad_scope.
Delimit Scope monad_scope with monad.
Notation "x <- m ;; k" := (bind m (fun x => k))
  (at level 61, m at next level, right associativity) : monad_scope.
Notation "m ;; k" := (bind m (fun _ => k))
  (at level 61, right associativity) : monad_scope.
Open Scope monad_scope.

Definition logging_debug (msg : string) : M unit := emit (Log DEBUG msg).
Definition logging_info (msg : string) : M unit := emit (Log INFO msg).
Definition logging_error (msg : string) : M unit := emit (Log ERROR msg).
Definition time_sleep (secs : Z) : M unit := emit (Sleep secs).

Definition send (session : Session) (r : request) : M Response :=
  fun t => (session t r, (t ++ [Http r])%list).

(** [session.head(url, timeout=.., allow_redirects=..)] *)
Definition session_head (session : Session) (url : string) (timeout : Z)
    (allow_redirects : bool) : M Response :=
  send session (HEAD url timeout allow_redirects).

(** [session.get(url, timeout=.., stream=.., allow_redirects=..)]; the
    defaults of [requests] are [stream=False], [allow_redirects=True]. *)
Definition session_get (session : Session) (url : string) (timeout : Z)
    (stream allow_redirects : bool) : M Response :=
  send session (GET url timeout stream allow_redirects).

(** [response.raise_for_status()]: an [HTTPError], which is a
    [RequestException], for the statuses 400-599. *)
Definition raise_for_status (r : Response) : M unit :=
  let c := status_code r in
  if ((400 <=? c) && (c <? 500))%Z then
    raise (RequestException (PyStr.str_of_Z c ++ " Client Error: " ++ reason r
                             ++ " for url: " ++ resp_url r))
  else if ((500 <=? c) && (c <? 600))%Z then
    raise (RequestException (PyStr.str_of_Z c ++ " Server Error: " ++ reason r
                             ++ " for url: " ++ resp_url r))
  else ret tt.

(** The requests a trace holds, in order. *)
Fixpoint net_calls (t : trace) : list request :=
  match t with
  | [] => []
  | Http r :: t' => r :: net_calls t'
  | _ :: t' => net_calls t'
  end.

(** A loop [for x in xs: body] whose body updates the local state [s]. *)
Fixpoint for_fold {A S} (xs : list A) (s : S) (body : S -> A -> M S) : M S :=
  match xs with
  | [] => ret s
  | x :: xs' => s' <- body s x ;; for_fold xs' s' body
  end.

(** ** Configuration *)

Import PyStr.

Definition default_domains : list string := ["example.com"; "cdn.example.com"].

(** [get_allowed_domains], as a function of the line [input] returns. *)
Definition get_allowed_domains (line : string) : list string :=
  let user_input := strip line in
  if negb (user_input =? "")
  then map strip (split "," user_input)
  else default_domains.

(** The dictionary literal, in insertion order, which is the order
    [.items()] iterates in. *)
Definition get_storage_classification : list (string * string) :=
  [ ("s3.amazonaws.com", "Amazon Web Services");
    ("data:image", "Base64 Encoded Image");
    ("blob:", "Blob");
    ("box.com", "Box");
    ("confluence", "Confluence");
    ("etrack:", "Etrack");
    ("googleusercontent", "Google CDN");
    ("chat.google.com", "Google Chat");
    ("mail.google.com", "Google Mail");
    ("gstatic.com", "Google Static Content");
    ("imgur", "Imgur");
    ("jira", "JIRA");
    ("c:\", "Local");
    ("file:///", "Local");
    ("wp-content", "WordPress");
    ("zendesk", "Zendesk") ].

Definition STORAGE_CLASSIFICATION : list (string * string) :=
  get_storage_classification.

Definition REQUEST_DELAY : Z := 1.

(** ** Storage classification *)

(** The [for key, classification in ...items()] loop with its two returns. *)
Fixpoint classify_loop (items : list (string * string)) (lower_url : string)
    : string :=
  match items with
  | [] => "Other"
  | (key, classification) :: rest =>
      if contains (lower key) lower_url then classification
      else classify_loop rest lower_url
  end.

Definition classify_image_storage (url : string) : string :=
  let lower_url := lower url in
  classify_loop STORAGE_CLASSIFICATION lower_url.

(** ** Records *)

(** The dictionary appended to [broken_images]; one field per key. *)
Record ImageRecord : Type :=
  { Article_ID : string;
    Title : string;
    Page_URL : string;
    Broken_Image_URL : string;
    HTTP_Status_Code : string;
    Storage_Location : string }.

(** Lines 217-220: the shortening of a [data:image] URL.  Unpacking the
    result of [split(',', 1)] into two names raises [ValueError] when the
    list has one element. *)
Definition shorten_data_uri (image_url : string) : result string :=
  if startswith image_url "data:image" then
    match split1 "," image_url with
    | [prefix; base64_data] =>
        let shortened_base64 :=
          if (40 <? String.length base64_data)%nat
          then slice_to 20 base64_data ++ "..." ++ slice_last 20 base64_data
          else base64_data in
        Ok (prefix ++ "," ++ shortened_base64)
    | parts =>
        Raise (ValueError ("not enough values to unpack (expected 2, got "
                           ++ str_of_nat (List.length parts) ++ ")"))
    end
  else Ok image_url.

(** [xs.index(x)] *)
Fixpoint list_index (x : string) (xs : list string) : option nat :=
  match xs with
  | [] => None
  | y :: ys =>
      if (y =? x)%string then Some 0
      else match list_index x ys with
           | Some i => Some (S i)
           | None => None
           end
  end.

(** ** CSV text: [csv.DictWriter] with [QUOTE_ALL] and the default dialect *)

Definition dquote : ascii := ascii_of_nat 34.

Fixpoint double_quotes (s : string) : string :=
  match s with
  | "" => ""
  | String a s' =>
      if Ascii.eqb a dquote then String a (String a (double_quotes s'))
      else String a (double_quotes s')
  end.

Definition csv_field (f : string) : string :=
  String dquote (double_quotes f) ++ String dquote "".

Definition lineterminator : string := String "013" (String "010" "").

Definition csv_row (fields : list string) : string :=
  String.concat "," (map csv_field fields) ++ lineterminator.

Definition fieldnames : list string :=
  ["Article ID"; "Title"; "Page URL"; "Broken Image URL"; "HTTP Status Code";
   "Storage Location"].

(** [_dict_to_list]: the values in the order of [fieldnames] *)
Definition dict_to_list (r : ImageRecord) : list string :=
  [Article_ID r; Title r; Page_URL r; Broken_Image_URL r; HTTP_Status_Code r;
   Storage_Location r].

(** ** Environments for the worked examples *)

Module Env.

(** The bracketed-host validation of CPython before 3.11.4: none. *)
Definition accept_bracketed : string -> result unit := fun _ => Ok tt.

(** [urljoin] where the reference carries a scheme of its own and is
    already in normal form: the reference is the result. *)
Definition urljoin_absolute : string -> string -> result string :=
  fun _ reference => Ok reference.

(** A parser for the documents of the examples: a document is the list of
    the [src] values of its content container, one per line; a document
    that starts with ["<html>"] has no container.  Its title is empty. *)
Definition lines_parse : string -> string -> string := fun content _ => content.

Definition lines_select (soup selector : string) : option (list string) :=
  if startswith soup "<html>" then None
  else if selector =? ".article-detail-card-content"
       then Some (split "010" soup)
       else None.

Definition no_title : string -> option string := fun _ => None.

Definition request_url (r : request) : string :=
  match r with
  | HEAD url _ _ => url
  | GET url _ _ _ => url
  end.

(** A server that answers every request with one status and one body. *)
Definition always (status : Z) (body : string) : Session :=
  fun _ r =>
    Ok {| status_code := status; reason := ""; resp_url := request_url r;
          content := body |}.

(** A server that refuses HEAD with 405 and answers GET with [status]. *)
Definition head_405_get (status : Z) : Session :=
  fun _ r =>
    match r with
    | HEAD url _ _ =>
        Ok {| status_code := 405; reason := "Method Not Allowed";
              resp_url := url; content := "" |}
    | GET url _ _ _ =>
        Ok {| status_code := status; reason := ""; resp_url := url;
              content := "" |}
    end.

(** No server: every request fails in the transport. *)
Definition unreachable : Session :=
  fun _ _ => Raise (RequestException "Connection refused").

(** A file system on which no directory can be created. *)
Definition read_only : FileSystem :=
  fun _ op =>
    match op with
    | Mkdir _ _ _ => Raise (OSError "[Errno 13] Permission denied")
    | _ => Ok tt
    end.

(** A file system on which every write fails. *)
Definition disk_full : FileSystem :=
  fun _ op =>
    match op with
    | Write _ _ => Raise (OSError "[Errno 28] No space left on device")
    | _ => Ok tt
    end.

Definition noon : trace -> string := fun _ => "20250526_120000".

Definition article : string := "https://kb.example.com/article/12/install".

Definition cdn_image : string := "https://cdn.example.com/a.png".

(** The trace after the domain check of [cdn_image] with the default
    allow-list, and the answer of [head_405_get] to its HEAD. *)
Definition cdn_image_allowed : trace :=
  [Log DEBUG
     "Domain check for https://cdn.example.com/a.png -> domain: cdn.example.com, allowed: True"].

Definition method_not_allowed : Response :=
  {| status_code := 405; reason := "Method Not Allowed";
     resp_url := cdn_image; content := "" |}.

(** A page whose container holds one image, on a host outside the default
    allow-list. *)
Definition page_evil : string := "http://evil.net/x.png".

(** What the scrape of [article] served as [page_evil] returns and leaves
    in the trace, with the default allow-list. *)
Definition evil_record : ImageRecord :=
  {| Article_ID := "12"; Title := "";
     Page_URL := article;
     Broken_Image_URL := "http://evil.net/x.png";
     HTTP_Status_Code := "CSP Violation";
     Storage_Location := "Other" |}.

Definition evil_trace : trace :=
  [Sleep 1; Http (GET article 10 false true);
   Log DEBUG "Found 1 images in container .article-detail-card-content.";
   Log DEBUG "Found image: http://evil.net/x.png";
   Log DEBUG
     "Domain check for http://evil.net/x.png -> domain: evil.net, allowed: False";
   Log INFO
     "CSP violation: Image http://evil.net/x.png is not hosted on an allowed domain.";
   Log INFO
     "Flagging broken image: http://evil.net/x.png -> CSP Violation (Storage: Other)"].

(** A [data:image] source with a payload of 50 characters, and its
    shortened form. *)
Definition data_src : string :=
  "data:image/png;base64,0123456789abcdefghijABCDEFGHIJ0123456789abcdefghij".

Definition data_stored : string :=
  "data:image/png;base64,0123456789abcdefghij...0123456789abcdefghij".

(** A base64 data URI whose scheme is written in capitals, with a payload
    of 50 characters, and one of another media type. *)
Definition data_upper_src : string :=
  "DATA:image/png;base64,0123456789abcdefghijABCDEFGHIJ0123456789abcdefghij".

Definition data_text_src : string :=
  "data:text/plain;base64,0123456789abcdefghijABCDEFGHIJ0123456789abcdefghij".

(** A page whose container holds one image, a [data:image] URL without
    comma. *)
Definition page_no_comma : string := "data:image/png".

Definition ok_response (body : string) : Response :=
  {| status_code := 200; reason := ""; resp_url := article;
     content := body |}.

(** A file system where every call succeeds, and one where no file can be
    opened. *)
Definition all_ok : FileSystem := fun _ _ => Ok tt.

Definition no_open : FileSystem :=
  fun _ op =>
    match op with
    | Open _ _ => Raise (OSError "[Errno 13] Permission denied")
    | _ => Ok tt
    end.

(** A page whose container holds two images, the second one on an allowed
    host. *)
Definition page_two : string :=
  "http://evil.net/x.png" ++ String "010" "https://cdn.example.com/a.png".


(** The record of [data_upper_src] on [article], with the default
    allow-list. *)
Definition data_upper_record : ImageRecord :=
  {| Article_ID := "12"; Title := "";
     Page_URL := article;
     Broken_Image_URL := data_upper_src;
     HTTP_Status_Code := "CSP Violation";
     Storage_Location := "Base64 Encoded Image" |}.

(** A document without content container. *)
Definition page_bare : string := "<html></html>".

(** Sitemaps: a document is the list of its [loc] texts, one per line. *)
Definition lines_locs : string -> list string := split "010".

Definition sitemap_root : string := "https://kb.example.com/sitemap.xml".

Definition sitemap_index : string :=
  "https://kb.example.com/sitemap1.xml"
  ++ String "010" " https://kb.example.com/sitemap2.xml ".

Definition root_response : Response :=
  {| status_code := 200; reason := "OK"; resp_url := sitemap_root;
     content := sitemap_index |}.

(** A server that has the main sitemap and nothing else. *)
Definition root_only : Session :=
  fun _ r =>
    if request_url r =? sitemap_root then Ok root_response
    else Ok {| status_code := 404; reason := "Not Found";
               resp_url := request_url r; content := "" |}.

(** A pool for the runs in which no batch is started. *)
Definition idle_pool
    : Session -> list string -> M (list (string * result (list ImageRecord))) :=
  fun _ pages => ret (map (fun page => (page, Ok [])) pages).


(** A server that has the page [page] with the body [body] and answers
    every other request with [status]. *)
Definition serves (page body : string) (status : Z) : Session :=
  fun _ r =>
    if request_url r =? page
    then Ok {| status_code := 200; reason := "OK"; resp_url := page;
               content := body |}
    else Ok {| status_code := status; reason := "";
               resp_url := request_url r; content := "" |}.

(** The record of [cdn_image] on [article] when the image answers 404. *)
Definition cdn_record : ImageRecord :=
  {| Article_ID := "12"; Title := "";
     Page_URL := article;
     Broken_Image_URL := cdn_image;
     HTTP_Status_Code := "HTTP 404";
     Storage_Location := "Other" |}.


(** The trace after [cdn_image] was found on a page and passed the domain
    check, and what [always] answers to its HEAD. *)
Definition cdn_image_found : trace :=
  [Log DEBUG "Found image: https://cdn.example.com/a.png";
   Log DEBUG
     "Domain check for https://cdn.example.com/a.png -> domain: cdn.example.com, allowed: True"].

Definition cdn_answer (status : Z) : Response :=
  {| status_code := status; reason := ""; resp_url := cdn_image;
     content := "" |}.


End Env.

(** ** The script *)

Section Script.

(** Library parameters: [urllib.parse]'s bracketed-host validation and
    [urljoin]; of [bs4], the parse of a document, for a selector the
    [src] values of [select_one(selector).find_all('img', src=True)]
    ([None] when [select_one] finds no container), and [soup.title.string]
    ([None] when [soup.title] or its [string] is [None]). *)
Variable _check_bracketed_netloc : string -> result unit.
Variable urljoin : string -> string -> result string.
Variable Soup : Type.
Variable BeautifulSoup : string -> string -> Soup.
Variable select_one_img_src : Soup -> string -> option (list string).
Variable title_string : Soup -> option string.

(** What the user entered at start-up: the allowed domains, and the text
    (the entry, stripped, or the default) the [Path] of the output
    directory is built from. *)
Variable ALLOWED_IMG_DOMAINS : list string.
Variable OUTPUT_DIRECTORY : string.

(** The file system and [datetime.now().strftime('%Y%m%d_%H%M%S')]. *)
Variable os : FileSystem.
Variable strftime_now : trace -> string.

Definition urlparse : string -> result Urllib.ParseResult :=
  Urllib.urlparse _check_bracketed_netloc.

(** *** Domain allowance check *)

Definition is_allowed_domain (url : string) : M bool :=
  parsed <- lift (urlparse url) ;;
  let domain := lower (Urllib.netloc parsed) in
  let result :=
    existsb (fun allowed => contains (lower allowed) domain)
            ALLOWED_IMG_DOMAINS in
  logging_debug ("Domain check for " ++ url ++ " -> domain: " ++ domain
                 ++ ", allowed: " ++ str_of_bool result) ;;
  ret result.

(** *** Image checking *)

Definition check_image (url : string) (session : Session)
    : M (option string) :=
  allowed <- is_allowed_domain url ;;
  if negb allowed then
    logging_info ("CSP violation: Image " ++ url
                  ++ " is not hosted on an allowed domain.") ;;
    ret (Some "CSP Violation")
  else
    try_except
      (response <- session_head session url 10 true ;;
       response <-
         (if (status_code response =? 405)%Z then
            logging_debug ("HEAD not allowed for " ++ url ++ "; trying GET.") ;;
            session_get session url 10 true true
          else ret response) ;;
       logging_debug ("Fetched " ++ url ++ " with status code "
                      ++ str_of_Z (status_code response)) ;;
       if negb ((200 <=? status_code response)
                && (status_code response <? 300))%Z
       then
         logging_info ("Image " ++ url ++ " returned non-2xx status code: "
                       ++ str_of_Z (status_code response)) ;;
         ret (Some ("HTTP " ++ str_of_Z (status_code response)))
       else ret None)
      is_RequestException
      (fun e =>
         logging_error ("Network error for image " ++ url ++ ": " ++ str_exn e) ;;
         ret (Some ("Network Error: " ++ str_exn e))).

(** *** Data extraction *)

Definition get_article_id (url : string) : result string :=
  rbind (urlparse url) (fun parsed_url =>
    let path_parts :=
      filter (fun segment => negb (segment =? ""))
             (split "/" (Urllib.path parsed_url)) in
    Ok (match list_index "article" path_parts with
        | Some idx =>
            if (idx + 1 <? List.length path_parts)%nat
            then nth (idx + 1) path_parts ""
            else ""
        | None => ""
        end)).

Definition get_title (soup : Soup) : string :=
  match title_string soup with
  | Some s => strip s
  | None => ""
  end.

(** *** Page scraping *)

Definition container_selectors : list string :=
  [".article-detail-card-content"].

(** The body of [for selector in container_selectors]. *)
Definition collect_images (url : string) (soup : Soup)
    (images : list string) (selector : string) : M (list string) :=
  match select_one_img_src soup selector with
  | Some images_in_container =>
      logging_debug ("Found " ++ str_of_nat (List.length images_in_container)
                     ++ " images in container " ++ selector ++ ".") ;;
      ret (images ++ images_in_container)%list
  | None =>
      logging_debug ("Container " ++ selector ++ " not found in " ++ url ++ ".") ;;
      ret images
  end.

(** The body of [for image in images]; [src] is [image['src']]. *)
Definition check_and_record (url : string) (soup : Soup) (session : Session)
    (broken_images : list ImageRecord) (src : string)
    : M (list ImageRecord) :=
  image_url <- lift (urljoin url src) ;;
  logging_debug ("Found image: " ++ image_url) ;;
  image_url <- lift (shorten_data_uri image_url) ;;
  reason <- check_image image_url session ;;
  match reason with
  | Some reason =>
      if negb (reason =? "") then
        let storage := classify_image_storage image_url in
        logging_info ("Flagging broken image: " ++ image_url ++ " -> " ++ reason
                      ++ " (Storage: " ++ storage ++ ")") ;;
        article_id <- lift (get_article_id url) ;;
        ret (broken_images
             ++ [ {| Article_ID := article_id;
                     Title := get_title soup;
                     Page_URL := url;
                     Broken_Image_URL := image_url;
                     HTTP_Status_Code := reason;
                     Storage_Location := storage |} ])%list
      else ret broken_images
  | None => ret broken_images
  end.

(** [None] stands for the [return []] of the [except] clause. *)
Definition fetch_page (url : string) (session : Session)
    : M (option Response) :=
  try_except
    (response <- session_get session url 10 false true ;;
     raise_for_status response ;;
     ret (Some response))
    is_RequestException
    (fun e =>
       logging_error ("Failed to retrieve " ++ url ++ ". Error: " ++ str_exn e) ;;
       ret None).

Definition scrape_and_check_images (url : string) (session : Session)
    : M (list ImageRecord) :=
  time_sleep REQUEST_DELAY ;;
  fetched <- fetch_page url session ;;
  match fetched with
  | None => ret []
  | Some response =>
      let soup := BeautifulSoup (content response) "html.parser" in
      images <- for_fold container_selectors [] (collect_images url soup) ;;
      for_fold images [] (check_and_record url soup session)
  end.

(** *** CSV output *)

Definition fs_call (op : fs_op) : M unit :=
  fun t => (os t op, (t ++ [Fs op])%list).

(** [with path.open(mode, ...) as file: body]: the file is closed on the
    way out, also when the body raises. *)
Definition with_open {A} (file mode : string) (body : M A) : M A :=
  fs_call (Open file mode) ;;
  fun t =>
    match body t with
    | (Ok a, t1) => (fs_call (Close file) ;; ret a) t1
    | (Raise e, t1) => (fs_call (Close file) ;; raise e) t1
    end.

Definition save_to_csv (data : list ImageRecord) (filename_prefix : string)
    : M unit :=
  timestamp <- (fun t => (Ok (strftime_now t), t)) ;;
  let filename := filename_prefix ++ "_" ++ timestamp ++ ".csv" in
  let output_path := Pathlib.truediv (Pathlib.Path OUTPUT_DIRECTORY) filename in
  fs_call (Mkdir (Pathlib.str (Pathlib.parent output_path)) true true) ;;
  try_except
    (with_open (Pathlib.str output_path) "w"
       (fs_call (Write (Pathlib.str output_path) (csv_row fieldnames)) ;;
        for_fold data tt
          (fun _ row =>
             fs_call (Write (Pathlib.str output_path)
                        (csv_row (dict_to_list row))))) ;;
     logging_info ("Data saved to " ++ Pathlib.str output_path ++ "."))
    (fun _ => true)
    (fun e => logging_error ("Failed to save CSV file. Error: " ++ str_exn e)).

(** *** Single page *)

(** [line] is what [input] returns. *)
Definition check_single_page (line : string) (session : Session) : M unit :=
  let page_url := strip line in
  if page_url =? "" then
    logging_error "No URL provided. Exiting single page check."
  else
    logging_info ("Checking single page: " ++ page_url) ;;
    broken_images <- scrape_and_check_images page_url session ;;
    logging_info
      (match broken_images with
       | [] => "No broken images found."
       | _ => "Found " ++ str_of_nat (List.length broken_images)
              ++ " broken images on " ++ page_url
       end) ;;
    save_to_csv broken_images "broken_images_single_page".

(** *** Sitemap run: collecting the results of a batch

    Lines 359-366.  [futures] lists, in completion order, each page of the
    batch with the outcome of its [scrape_and_check_images] call. *)
Definition collect_batch (futures : list (string * result (list ImageRecord)))
    (broken_images : list ImageRecord) : M (list ImageRecord) :=
  for_fold futures broken_images
    (fun broken_images '(page_url, outcome) =>
       match outcome with
       | Ok result =>
           match result with
           | [] => ret broken_images
           | _ => ret (broken_images ++ result)%list
           end
       | Raise exc =>
           logging_error ("Error for URL: " ++ page_url ++ ". Exception: "
                          ++ str_exn exc) ;;
           ret broken_images
       end).

(** *** The vocabulary of the properties *)

(** [sub] occurs in [s]. *)
Definition is_substring (sub s : string) : Prop :=
  exists pre post, s = pre ++ sub ++ post.

(** The spec's reading of the table: [label] belongs to the first entry
    whose lowercased pattern occurs in the lowercased URL. *)
Definition first_match (table : list (string * string)) (url label : string)
    : Prop :=
  exists pre key post,
    table = (pre ++ (key, label) :: post)%list
    /\ is_substring (lower key) (lower url)
    /\ Forall (fun e => ~ is_substring (lower (fst e)) (lower url)) pre.

Definition no_match (table : list (string * string)) (url : string) : Prop :=
  Forall (fun e => ~ is_substring (lower (fst e)) (lower url)) table.


(** The verdict the spec attaches to a final status. *)
Definition decided_by (status : Z) (verdict : option string) : Prop :=
  ((200 <= status <= 299)%Z -> verdict = None)
  /\ (~ (200 <= status <= 299)%Z ->
      verdict = Some ("HTTP " ++ str_of_Z status)).

(** A record of the page [url]: its URL is the shortened form of a resolved
    source, and its storage label is the classification of that very
    string. *)
Definition record_of_page (url : string) (r : ImageRecord) : Prop :=
  exists src resolved,
    urljoin url src = Ok resolved
    /\ shorten_data_uri resolved = Ok (Broken_Image_URL r)
    /\ Storage_Location r = classify_image_storage (Broken_Image_URL r)
    /\ Page_URL r = url
    /\ HTTP_Status_Code r <> "".

(** The fetch of [url] fails in the trace [t]: the session raises a
    [RequestException], or it answers with a status [raise_for_status]
    rejects. *)
Definition fetch_fails (session : Session) (t : trace) (url : string) : Prop :=
  (exists msg, session t (GET url 10 false true) = Raise (RequestException msg))
  \/ (exists r, session t (GET url 10 false true) = Ok r
                /\ (400 <= status_code r < 600)%Z).

(** [kept] is [all] with some elements left out, the order unchanged. *)
Inductive subseq {A : Type} : list A -> list A -> Prop :=
| subseq_nil : subseq [] []
| subseq_skip (x : A) (kept all : list A) :
    subseq kept all -> subseq kept (x :: all)
| subseq_keep (x : A) (kept all : list A) :
    subseq kept all -> subseq (x :: kept) (x :: all).

(** [r] is the record the loop body builds for the image source [src] of
    the page [url] parsed as [soup]. *)
Definition record_from (url : string) (soup : Soup) (src : string)
    (r : ImageRecord) : Prop :=
  exists resolved,
    urljoin url src = Ok resolved
    /\ shorten_data_uri resolved = Ok (Broken_Image_URL r)
    /\ Storage_Location r = classify_image_storage (Broken_Image_URL r)
    /\ Page_URL r = url
    /\ Title r = get_title soup
    /\ get_article_id url = Ok (Article_ID r)
    /\ HTTP_Status_Code r <> "".



(** Run from any trace, [m] only appends events, at most [n] requests
    among them. *)
Definition issues_at_most {A : Type} (m : M A) (n : nat) : Prop :=
  forall t, exists d,
    snd (m t) = (t ++ d)%list /\ List.length (net_calls d) <= n.


(** *** Sitemap run and entry point

    [find_all_loc_text] gives, for an XML document, [loc.text] for each
    element of [BeautifulSoup(content, 'xml').find_all('loc')].  The thread
    pool is a parameter as well: [run_batch session pages] stands for
    submitting [scrape_and_check_images] for each page and waiting for the
    futures; it yields each page with the outcome of its call, in
    completion order, and leaves the events of the workers in the trace. *)
Variable find_all_loc_text : string -> list string.
Variable run_batch :
  Session -> list string -> M (list (string * result (list ImageRecord))).

(** [None] stands for the [return] or the [continue] of the [except]
    clause; [what] is the word the log line names the document with. *)
Definition fetch_sitemap (what url : string) (session : Session)
    : M (option Response) :=
  try_except
    (response <- session_get session url 10 false true ;;
     raise_for_status response ;;
     ret (Some response))
    is_RequestException
    (fun e =>
       logging_error ("Failed to retrieve " ++ what ++ ": " ++ url
                      ++ ". Error: " ++ str_exn e) ;;
       ret None).

(** The body of [for sitemap_url in sitemap_urls]. *)
Definition check_sitemap (session : Session)
    (broken_images : list ImageRecord) (sitemap_url : string)
    : M (list ImageRecord) :=
  fetched <- fetch_sitemap "sitemap" sitemap_url session ;;
  match fetched with
  | None => ret broken_images
  | Some response =>
      let pages := find_all_loc_text (content response) in
      futures <- run_batch session pages ;;
      broken_images <- collect_batch futures broken_images ;;
      time_sleep 2 ;;
      ret broken_images
  end.

(** [line] is what [input] returns. *)
Definition check_all_pages (line : string) (session : Session) : M unit :=
  let main_sitemap_url := strip line in
  if main_sitemap_url =? "" then
    logging_error "No sitemap URL provided. Exiting all pages check."
  else
    fetched <- fetch_sitemap "main sitemap" main_sitemap_url session ;;
    match fetched with
    | None => ret tt
    | Some response =>
        let sitemap_urls :=
          map strip (find_all_loc_text (content response)) in
        logging_info ("Found " ++ str_of_nat (List.length sitemap_urls)
                      ++ " sitemap URLs.") ;;
        broken_images <- for_fold sitemap_urls [] (check_sitemap session) ;;
        logging_info ("Total broken images found: "
                      ++ str_of_nat (List.length broken_images)) ;;
        save_to_csv broken_images "broken_images_all_pages"
    end.

(** [mode_line] and [line] are what the two calls of [input] return; the
    session is the one [main] creates. *)
Definition main (mode_line line : string) (session : Session) : M unit :=
  let mode := lower (strip mode_line) in
  if mode =? "single" then check_single_page line session
  else if mode =? "all" then check_all_pages line session
  else logging_error "Invalid input. Enter 'single' or 'all'.".

(** *** More vocabulary *)

(** The records of the pages of a batch that returned, and the lines logged
    for those that raised, in completion order. *)
Definition batch_records (futures : list (string * result (list ImageRecord)))
    : list ImageRecord :=
  flat_map (fun f => match snd f with Ok result => result | Raise _ => [] end)
           futures.

Definition batch_errors (futures : list (string * result (list ImageRecord)))
    : list event :=
  flat_map
    (fun f =>
       match snd f with
       | Ok _ => []
       | Raise exc =>
           [Log ERROR ("Error for URL: " ++ fst f ++ ". Exception: "
                       ++ str_exn exc)]
       end)
    futures.

(** Reading a quoted field back: [s] is what follows the opening quote; the
    result is the field and what follows the closing quote. *)
Fixpoint read_quoted (s : string) : option (string * string) :=
  match s with
  | "" => None
  | String c s' =>
      if Ascii.eqb c dquote then
        match s' with
        | String c' s'' =>
            if Ascii.eqb c' dquote then
              match read_quoted s'' with
              | Some (f, rest) => Some (String dquote f, rest)
              | None => None
              end
            else Some ("", s')
        | "" => Some ("", "")
        end
      else
        match read_quoted s' with
        | Some (f, rest) => Some (String c f, rest)
        | None => None
        end
  end.

(** The number of occurrences of a character. *)
Fixpoint count_char (c : ascii) (s : string) : nat :=
  match s with
  | "" => 0
  | String a s' => (if Ascii.eqb a c then 1 else 0) + count_char c s'
  end.


(** What follows the closing quote of a field in a line: the comma and the
    other fields, then the line terminator. *)
Definition row_tail (fields : list string) : string :=
  match fields with
  | [] => ""
  | _ :: _ => "," ++ String.concat "," (map csv_field fields)
  end ++ lineterminator.


(** * Properties *)

(** ** Strings *)

Lemma startswith_app (p r : string) : startswith (p ++ r) p = true.
Proof.
  induction p as [|a p IH]; simpl; [reflexivity|].
  now rewrite Ascii.eqb_refl.
Qed.

Lemma startswith_inv (s p : string) :
  startswith s p = true -> exists r, s = p ++ r.
Proof.
  revert s; induction p as [|a p IH]; intros s H.
  - now exists s.
  - destruct s as [|b s]; simpl in H; [discriminate|].
    apply andb_true_iff in H as [Hab Hs].
    apply Ascii.eqb_eq in Hab; subst b.
    destruct (IH _ Hs) as [r ->]. now exists r.
Qed.

Lemma contains_unfold (sub s : string) :
  contains sub s
  = startswith s sub
    || match s with "" => false | String _ s' => contains sub s' end.
Proof. destruct s; reflexivity. Qed.

Lemma contains_iff (sub s : string) :
  contains sub s = true <-> is_substring sub s.
Proof.
  split.
  - induction s as [|a s IH]; simpl; intros H.
    + rewrite orb_false_r in H. apply startswith_inv in H as [r Hr].
      exists "", r. exact Hr.
    + apply orb_true_iff in H as [H|H].
      * apply startswith_inv in H as [r Hr]. exists "", r. exact Hr.
      * destruct (IH H) as (pre & post & ->). now exists (String a pre), post.
  - intros (pre & post & ->).
    induction pre as [|a pre IH]; simpl.
    + now rewrite contains_unfold, startswith_app.
    + rewrite IH. apply orb_true_r.
Qed.

Lemma contains_false_iff (sub s : string) :
  contains sub s = false <-> ~ is_substring sub s.
Proof.
  rewrite <- contains_iff. destruct (contains sub s); split; intros; congruence.
Qed.

Lemma lower_app (a b : string) : lower (a ++ b) = lower a ++ lower b.
Proof. induction a as [|c a IH]; simpl; [reflexivity|now rewrite IH]. Qed.

Lemma lower_empty_inv (s : string) : lower s = "" -> s = "".
Proof. destruct s; simpl; [reflexivity|discriminate]. Qed.

Lemma app_empty_inv (a b : string) : a ++ b = "" -> a = "" /\ b = "".
Proof. destruct a; simpl; [now split|discriminate]. Qed.

Lemma is_substring_empty_inv (sub : string) : is_substring sub "" -> sub = "".
Proof.
  intros (pre & post & H). symmetry in H.
  apply app_empty_inv in H as [_ H]. now apply app_empty_inv in H as [H _].
Qed.

Lemma string_app_assoc (a b c : string) : (a ++ b) ++ c = a ++ (b ++ c).
Proof. induction a as [|x a IH]; simpl; [reflexivity|now rewrite IH]. Qed.

Lemma slice_to_from (n : nat) (s : string) :
  s = slice_to n s ++ slice_from n s.
Proof.
  revert s; induction n as [|n IH]; intros [|a s]; simpl; try reflexivity.
  now rewrite <- IH.
Qed.







(** ** C1: the classifier *)

Lemma classify_loop_first_match table url label :
  first_match table url label -> classify_loop table (lower url) = label.
Proof.
  intros (pre & key & post & -> & Hk & Hpre).
  induction Hpre as [|[k l] pre Hx _ IH]; simpl.
  - apply contains_iff in Hk. now rewrite Hk.
  - apply contains_false_iff in Hx. simpl in Hx. now rewrite Hx.
Qed.

Lemma classify_loop_no_match table url :
  no_match table url -> classify_loop table (lower url) = "Other".
Proof.
  induction 1 as [|[k l] rest Hx _ IH]; simpl; [reflexivity|].
  apply contains_false_iff in Hx. simpl in Hx. now rewrite Hx.
Qed.

Lemma classify_loop_cases table url :
  first_match table url (classify_loop table (lower url))
  \/ (no_match table url /\ classify_loop table (lower url) = "Other").
Proof.
  induction table as [|[k l] rest IH]; simpl.
  - right. split; [constructor|reflexivity].
  - destruct (contains (lower k) (lower url)) eqn:E.
    + left. exists [], k, rest. repeat split; [|constructor].
      now apply contains_iff.
    + apply contains_false_iff in E.
      destruct IH as [(pre & key & post & Hrest & Hk & Hpre)|[Hn Ho]].
      * left. exists ((k, l) :: pre), key, post. split; [|split].
        -- simpl. now rewrite <- Hrest.
        -- exact Hk.
        -- now constructor.
      * right. split; [now constructor|exact Ho].
Qed.

(** C1.  For every URL, [classify_image_storage] returns the label of the
    first table entry, in the table's order, whose lowercased pattern is a
    substring of the lowercased URL, and ["Other"] when no pattern matches;
    one of the two cases always applies, so the function is total. *)
Theorem classify_image_storage_first_match (url : string) :
  (forall label,
      first_match STORAGE_CLASSIFICATION url label ->
      classify_image_storage url = label)
  /\ (no_match STORAGE_CLASSIFICATION url ->
      classify_image_storage url = "Other")
  /\ (first_match STORAGE_CLASSIFICATION url (classify_image_storage url)
      \/ (no_match STORAGE_CLASSIFICATION url
          /\ classify_image_storage url = "Other")).
Proof.
  unfold classify_image_storage. split; [|split].
  - intros label. apply classify_loop_first_match.
  - apply classify_loop_no_match.
  - apply classify_loop_cases.
Qed.

(** ** The monad and the trace *)

Lemma bind_Ok {A B} (m : M A) (k : A -> M B) t a t1 :
  m t = (Ok a, t1) -> bind m k t = k a t1.
Proof. unfold bind. now intros ->. Qed.

Lemma bind_Ok_inv {A B} (m : M A) (k : A -> M B) t b t' :
  bind m k t = (Ok b, t') ->
  exists a t1, m t = (Ok a, t1) /\ k a t1 = (Ok b, t').
Proof.
  unfold bind. destruct (m t) as [[a|e] t1]; intros H.
  - now exists a, t1.
  - discriminate.
Qed.

Lemma net_calls_app (t u : trace) :
  net_calls (t ++ u)%list = (net_calls t ++ net_calls u)%list.
Proof.
  induction t as [|ev t IH]; simpl; [reflexivity|].
  destruct ev; simpl; now rewrite IH.
Qed.

Lemma net_calls_log t l msg : net_calls (t ++ [Log l msg])%list = net_calls t.
Proof. rewrite net_calls_app. simpl. apply app_nil_r. Qed.

Lemma for_fold_invariant {A S} (P : S -> Prop) (body : S -> A -> M S) :
  (forall s x t s' t', P s -> body s x t = (Ok s', t') -> P s') ->
  forall xs s t s' t',
    P s -> for_fold xs s body t = (Ok s', t') -> P s'.
Proof.
  intros Hbody xs. induction xs as [|x xs IH]; simpl; intros s t s' t' Hs H.
  - unfold ret in H. now inversion H; subst.
  - apply bind_Ok_inv in H as (s1 & t1 & H1 & H2).
    eapply IH; [|exact H2]. eapply Hbody; eassumption.
Qed.

(** ** C2: the domain check *)

Lemma is_allowed_domain_trace url t r t1 :
  is_allowed_domain url t = (r, t1) -> net_calls t1 = net_calls t.
Proof.
  unfold is_allowed_domain, bind, lift, logging_debug, emit, ret.
  destruct (urlparse url); intros H; inversion H; subst;
    [apply net_calls_log|reflexivity].
Qed.

Lemma is_allowed_domain_eval url parsed t :
  urlparse url = Ok parsed ->
  exists msg,
    is_allowed_domain url t
    = (Ok (existsb (fun allowed =>
                      contains (lower allowed) (lower (Urllib.netloc parsed)))
                   ALLOWED_IMG_DOMAINS),
       (t ++ [Log DEBUG msg])%list).
Proof.
  intros H. unfold is_allowed_domain, bind, lift, logging_debug, emit, ret.
  rewrite H. eexists. reflexivity.
Qed.

Lemma empty_netloc_not_allowed :
  ~ In "" ALLOWED_IMG_DOMAINS ->
  existsb (fun allowed => contains (lower allowed) (lower ""))
          ALLOWED_IMG_DOMAINS = false.
Proof.
  intros Hempty.
  destruct (existsb _ _) eqn:E; [|reflexivity].
  apply existsb_exists in E as (a & Ha & Hc).
  apply contains_iff in Hc. simpl in Hc.
  apply is_substring_empty_inv, lower_empty_inv in Hc. now subst a.
Qed.


(** ** C3: a disallowed URL is never probed *)

Lemma check_image_csp (url : string) (session : Session) (t t1 : trace) :
  is_allowed_domain url t = (Ok false, t1) ->
  exists msg,
    check_image url session t
    = (Ok (Some "CSP Violation"), (t1 ++ [Log INFO msg])%list).
Proof.
  intros H. unfold check_image. rewrite (bind_Ok _ _ _ _ _ H).
  cbn [negb]. eexists. reflexivity.
Qed.

(** C3.  When [is_allowed_domain] returns false for the URL, [check_image]
    returns ["CSP Violation"] and the trace gains no request: neither HEAD
    nor GET is issued, whatever the session would answer. *)
Theorem check_image_disallowed (url : string) (session : Session)
    (t t1 : trace) :
  is_allowed_domain url t = (Ok false, t1) ->
  exists t2,
    check_image url session t = (Ok (Some "CSP Violation"), t2)
    /\ net_calls t2 = net_calls t.
Proof.
  intros H. destruct (check_image_csp url session _ _ H) as [msg Hc].
  eexists. split; [exact Hc|].
  rewrite net_calls_log. eapply is_allowed_domain_trace, H.
Qed.

(** ** C4: the 405 fallback and the verdict *)

Lemma status_verdict (status : Z) (t : trace) (url : string) :
  exists verdict t',
    (if negb ((200 <=? status) && (status <? 300))%Z
     then
       logging_info ("Image " ++ url ++ " returned non-2xx status code: "
                     ++ str_of_Z status) ;;
       ret (Some ("HTTP " ++ str_of_Z status))
     else ret None) t = (Ok verdict, t')
    /\ net_calls t' = net_calls t
    /\ decided_by status verdict.
Proof.
  destruct ((200 <=? status) && (status <? 300))%Z eqn:E; simpl.
  - apply andb_true_iff in E as [E1 E2].
    apply Z.leb_le in E1. apply Z.ltb_lt in E2.
    exists None, t. split; [reflexivity|]. split; [reflexivity|].
    split; [reflexivity|]. intros H. exfalso. apply H. lia.
  - eexists _, _. split; [reflexivity|]. split; [apply net_calls_log|].
    split; [|reflexivity]. intros H. exfalso.
    apply andb_false_iff in E as [E|E];
      [apply Z.leb_gt in E|apply Z.ltb_ge in E]; lia.
Qed.

(** C4.  For an allowed URL whose HEAD probe answers: when the answer's
    status is 405, [check_image] issues exactly one further request, the
    GET with timeout 10, streaming and redirects on, and nothing after it,
    whatever the GET answers; the verdict comes from the GET's response.
    When the status is not 405, the HEAD is the only request and the verdict
    comes from its response.  A final status in 200-299 gives no failure
    reason, any other gives ["HTTP <status>"]. *)
Theorem check_image_head_then_get (url : string) (session : Session)
    (t t1 : trace) (r1 : Response) :
  is_allowed_domain url t = (Ok true, t1) ->
  session t1 (HEAD url 10 true) = Ok r1 ->
  (status_code r1 = 405%Z ->
     exists res t3,
       check_image url session t = (res, t3)
       /\ net_calls t3
          = (net_calls t ++ [HEAD url 10 true; GET url 10 true true])%list
       /\ forall r2,
            session
              (t1 ++ [Http (HEAD url 10 true);
                      Log DEBUG ("HEAD not allowed for " ++ url
                                 ++ "; trying GET.")])%list
              (GET url 10 true true) = Ok r2 ->
            exists verdict,
              res = Ok verdict /\ decided_by (status_code r2) verdict)
  /\ (status_code r1 <> 405%Z ->
      exists verdict t3,
        check_image url session t = (Ok verdict, t3)
        /\ net_calls t3 = (net_calls t ++ [HEAD url 10 true])%list
        /\ decided_by (status_code r1) verdict).
Proof.
  intros Hallowed Hhead.
  pose proof (is_allowed_domain_trace _ _ _ _ Hallowed) as Ht1.
  unfold check_image. rewrite (bind_Ok _ _ _ _ _ Hallowed).
  cbn [negb]. unfold try_except, session_head, session_get, send.
  split; intros H405; unfold bind at 1; rewrite Hhead.
  - rewrite H405, Z.eqb_refl.
    unfold bind at 1. unfold bind at 1. unfold logging_debug at 1, emit at 1.
    rewrite <- app_assoc. cbn [app].
    destruct (session _ (GET url 10 true true)) as [r2|e] eqn:Hget.
    + unfold bind at 1. unfold logging_debug at 1, emit at 1.
      match goal with
      | |- context [(if negb _ then _ else _) ?tr] =>
          destruct (status_verdict (status_code r2) tr url)
            as (verdict & t' & Hv & Hn & Hd)
      end.
      rewrite Hv. exists (Ok verdict), t'. split; [reflexivity|]. split.
      * rewrite Hn, !net_calls_app, Ht1. simpl.
        now rewrite app_nil_r, <- app_assoc.
      * intros r2' Hr2'. inversion Hr2'; subst r2'. now exists verdict.
    + destruct (is_RequestException e).
      * eexists _, _. split; [reflexivity|]. split.
        -- unfold bind, logging_error, emit, ret.
           rewrite !net_calls_app, Ht1. simpl.
           now rewrite app_nil_r, <- app_assoc.
        -- intros r2 Hr2. discriminate.
      * eexists _, _. split; [reflexivity|]. split.
        -- rewrite !net_calls_app, Ht1. simpl. now rewrite <- app_assoc.
        -- intros r2 Hr2. discriminate.
  - apply Z.eqb_neq in H405. rewrite H405.
    unfold bind at 1. unfold ret at 1.
    unfold bind at 1. unfold logging_debug at 1, emit at 1.
    match goal with
    | |- context [(if negb _ then _ else _) ?tr] =>
        destruct (status_verdict (status_code r1) tr url)
          as (verdict & t' & Hv & Hn & Hd)
    end.
    rewrite Hv. exists verdict, t'. split; [reflexivity|]. split; [|exact Hd].
    rewrite Hn, !net_calls_app, Ht1. simpl. now rewrite app_nil_r.
Qed.

(** ** C5: shortening a [data:image] URL *)

Lemma find_app (c : ascii) (p r : string) :
  has_char c p = false -> find c (p ++ String c r) = Some (String.length p).
Proof.
  induction p as [|a p IH]; simpl; intros H.
  - now rewrite Ascii.eqb_refl.
  - apply orb_false_iff in H as [Ha Hp]. now rewrite Ha, (IH Hp).
Qed.

Lemma find_None (c : ascii) (s : string) :
  has_char c s = false -> find c s = None.
Proof.
  induction s as [|a s IH]; simpl; intros H; [reflexivity|].
  apply orb_false_iff in H as [Ha Hs]. now rewrite Ha, (IH Hs).
Qed.

Lemma slice_to_app (p r : string) : slice_to (String.length p) (p ++ r) = p.
Proof.
  induction p as [|a p IH]; simpl; [now destruct r|now rewrite IH].
Qed.

Lemma slice_from_app_cons (c : ascii) (p r : string) :
  slice_from (S (String.length p)) (p ++ String c r) = r.
Proof. induction p as [|a p IH]; simpl; [now destruct r|exact IH]. Qed.

Lemma split1_app (c : ascii) (p r : string) :
  has_char c p = false -> split1 c (p ++ String c r) = [p; r].
Proof.
  intros H. unfold split1.
  now rewrite (find_app _ _ _ H), slice_to_app, slice_from_app_cons.
Qed.

Lemma slice_to_length (n : nat) (s : string) :
  n <= String.length s -> String.length (slice_to n s) = n.
Proof.
  revert s; induction n as [|n IH]; intros [|a s]; simpl; intros H;
    try reflexivity; try lia.
  rewrite IH; [reflexivity|lia].
Qed.

Lemma slice_from_length (n : nat) (s : string) :
  String.length (slice_from n s) = String.length s - n.
Proof.
  revert s; induction n as [|n IH]; intros [|a s]; simpl; try reflexivity.
  apply IH.
Qed.

Lemma slice_from_add (a b : nat) (s : string) :
  slice_from (a + b) s = slice_from b (slice_from a s).
Proof.
  revert s; induction a as [|a IH]; intros s; simpl; [reflexivity|].
  destruct s as [|c s]; simpl; [now destruct b|apply IH].
Qed.

(** The first and the last [n] characters of a string of at least [2 n]
    characters, with what lies between them. *)
Lemma first_middle_last (n : nat) (s : string) :
  2 * n <= String.length s ->
  exists middle,
    s = slice_to n s ++ middle ++ slice_last n s
    /\ String.length (slice_to n s) = n
    /\ String.length (slice_last n s) = n.
Proof.
  intros H. exists (slice_to (String.length s - 2 * n) (slice_from n s)).
  split; [|split].
  - unfold slice_last.
    replace (String.length s - n) with (n + (String.length s - 2 * n)) by lia.
    rewrite slice_from_add, <- slice_to_from. apply slice_to_from.
  - apply slice_to_length. lia.
  - unfold slice_last. rewrite slice_from_length. lia.
Qed.

(** C5, as amended.  A URL that does not start with ["data:image"], the
    comparison being that of [startswith], is kept as it is.  A
    URL that does and has a comma, [prefix] being the part before the first
    comma and [payload] the part after it, is kept as it is when the payload
    has at most 40 characters, and otherwise becomes the prefix, the comma,
    the first 20 characters of the payload, ["..."] and its last 20
    characters. *)
Theorem shorten_data_uri_law (url : string) :
  (startswith url "data:image" = false -> shorten_data_uri url = Ok url)
  /\ (forall prefix payload,
        startswith url "data:image" = true ->
        url = prefix ++ "," ++ payload ->
        has_char "," prefix = false ->
        (String.length payload <= 40 -> shorten_data_uri url = Ok url)
        /\ (40 < String.length payload ->
            exists first middle last,
              payload = first ++ middle ++ last
              /\ String.length first = 20
              /\ String.length last = 20
              /\ shorten_data_uri url
                 = Ok (prefix ++ "," ++ first ++ "..." ++ last))).
Proof.
  unfold shorten_data_uri. split.
  - now intros ->.
  - intros prefix payload -> -> Hprefix.
    change (prefix ++ "," ++ payload) with (prefix ++ String "," payload).
    rewrite (split1_app _ _ _ Hprefix). split; intros Hlen.
    + apply Nat.ltb_ge in Hlen. now rewrite Hlen.
    + destruct (first_middle_last 20 payload) as (middle & Hp & Hf & Hl);
        [lia|].
      apply Nat.ltb_lt in Hlen. rewrite Hlen.
      now exists (slice_to 20 payload), middle, (slice_last 20 payload).
Qed.

(** ** C6: what a record holds *)

Lemma lift_Ok_inv {A} (r : result A) t a t' :
  lift r t = (Ok a, t') -> r = Ok a /\ t' = t.
Proof. unfold lift. intros H. now inversion H. Qed.

Lemma check_and_record_inv url soup session acc src t acc' t' :
  Forall (record_of_page url) acc ->
  check_and_record url soup session acc src t = (Ok acc', t') ->
  Forall (record_of_page url) acc'.
Proof.
  intros Hacc H. unfold check_and_record in H.
  apply bind_Ok_inv in H as (resolved & t1 & Hjoin & H).
  apply lift_Ok_inv in Hjoin as [Hjoin ->].
  apply bind_Ok_inv in H as ([] & t2 & _ & H).
  apply bind_Ok_inv in H as (stored & t3 & Hshort & H).
  apply lift_Ok_inv in Hshort as [Hshort ->].
  apply bind_Ok_inv in H as (reason & t4 & _ & H).
  destruct reason as [reason|]; [|unfold ret in H; now inversion H; subst].
  destruct (reason =? "") eqn:E; cbn [negb] in H;
    [unfold ret in H; now inversion H; subst|].
  apply bind_Ok_inv in H as ([] & t5 & _ & H).
  apply bind_Ok_inv in H as (article_id & t6 & _ & H).
  unfold ret in H. inversion H; subst acc' t'. clear H.
  apply Forall_app. split; [exact Hacc|].
  constructor; [|constructor].
  exists src, resolved. cbn.
  repeat split; try assumption.
  now apply String.eqb_neq in E.
Qed.

Lemma scrape_records url session t recs t' :
  scrape_and_check_images url session t = (Ok recs, t') ->
  Forall (record_of_page url) recs.
Proof.
  intros H. unfold scrape_and_check_images in H.
  apply bind_Ok_inv in H as ([] & t1 & _ & H).
  apply bind_Ok_inv in H as (fetched & t2 & _ & H).
  destruct fetched as [response|].
  - apply bind_Ok_inv in H as (images & t3 & _ & H).
    eapply for_fold_invariant; [|constructor|exact H].
    intros s x u s' u'. apply check_and_record_inv.
  - unfold ret in H. inversion H. constructor.
Qed.

(** C6.  In every record [scrape_and_check_images] returns, the storage
    location is [classify_image_storage] applied to the URL string stored in
    the same record, which is the shortened form of the resolved source. *)
Theorem record_storage_is_classification (url : string) (session : Session)
    (t t' : trace) (recs : list ImageRecord) :
  scrape_and_check_images url session t = (Ok recs, t') ->
  Forall
    (fun r =>
       Storage_Location r = classify_image_storage (Broken_Image_URL r)
       /\ exists src resolved,
            urljoin url src = Ok resolved
            /\ shorten_data_uri resolved = Ok (Broken_Image_URL r))
    recs.
Proof.
  intros H. apply scrape_records in H.
  eapply Forall_impl; [|exact H].
  intros r (src & resolved & Hj & Hs & Hc & _). split; [exact Hc|].
  now exists src, resolved.
Qed.

(** ** C7: a page that cannot be fetched *)

Lemma raise_for_status_rejects (r : Response) (t : trace) :
  (400 <= status_code r < 600)%Z ->
  exists msg, raise_for_status r t = (Raise (RequestException msg), t).
Proof.
  intros H. unfold raise_for_status.
  destruct ((400 <=? status_code r) && (status_code r <? 500))%Z eqn:E4;
    [eexists; reflexivity|].
  destruct ((500 <=? status_code r) && (status_code r <? 600))%Z eqn:E5;
    [eexists; reflexivity|].
  exfalso.
  apply andb_false_iff in E4 as [E4|E4]; apply andb_false_iff in E5 as [E5|E5];
    (apply Z.leb_gt in E4 || apply Z.ltb_ge in E4);
    (apply Z.leb_gt in E5 || apply Z.ltb_ge in E5); lia.
Qed.

Lemma raise_for_status_accepts (r : Response) (t : trace) :
  ~ (400 <= status_code r < 600)%Z -> raise_for_status r t = (Ok tt, t).
Proof.
  intros H. unfold raise_for_status.
  destruct ((400 <=? status_code r) && (status_code r <? 500))%Z eqn:E4.
  - apply andb_true_iff in E4 as [E1 E2].
    apply Z.leb_le in E1. apply Z.ltb_lt in E2. lia.
  - destruct ((500 <=? status_code r) && (status_code r <? 600))%Z eqn:E5;
      [|reflexivity].
    apply andb_true_iff in E5 as [E1 E2].
    apply Z.leb_le in E1. apply Z.ltb_lt in E2. lia.
Qed.

Lemma fetch_page_fails (url : string) (session : Session) (t : trace) :
  fetch_fails session t url ->
  exists msg,
    fetch_page url session t
    = (Ok None, (t ++ [Http (GET url 10 false true); Log ERROR msg])%list).
Proof.
  unfold fetch_page, try_except, session_get, send.
  intros [[msg H]|(r & H & Hr)]; unfold bind at 1; rewrite H.
  - cbn [is_RequestException]. unfold bind, logging_error, emit, ret.
    eexists. now rewrite <- app_assoc.
  - unfold bind at 1.
    destruct (raise_for_status_rejects r
                (t ++ [Http (GET url 10 false true)])%list Hr) as [msg ->].
    cbn [is_RequestException]. unfold bind, logging_error, emit, ret.
    eexists. now rewrite <- app_assoc.
Qed.

Lemma for_fold_skip {A S} (body : S -> A -> M S) (x : A) :
  (forall s t, body s x t = (Ok s, t)) ->
  forall before after s t,
    for_fold (before ++ x :: after) s body t
    = for_fold (before ++ after) s body t.
Proof.
  intros Hx before after.
  induction before as [|y before IH]; intros s t; cbn [for_fold app].
  - unfold bind. now rewrite Hx.
  - unfold bind. destruct (body s y t) as [[s1|e] t1]; [apply IH|reflexivity].
Qed.

Lemma collect_batch_skip before after page acc u :
  collect_batch (before ++ (page, Ok []) :: after) acc u
  = collect_batch (before ++ after) acc u.
Proof. unfold collect_batch. now apply for_fold_skip. Qed.

(** C7, as amended.  When the fetch of the page fails, that is when the
    session raises a [RequestException] or answers with a status in 400-599,
    [scrape_and_check_images] returns the empty list and raises nothing: it
    sleeps, issues the one GET and logs the error.  In the batch of a
    sitemap run the page then adds nothing: the records collected are those
    of the other pages. *)
Theorem scrape_failed_fetch (url : string) (session : Session) (t : trace) :
  fetch_fails session (t ++ [Sleep 1])%list url ->
  (exists msg,
      scrape_and_check_images url session t
      = (Ok [], (t ++ [Sleep 1; Http (GET url 10 false true);
                       Log ERROR msg])%list))
  /\ forall before after acc u,
       collect_batch
         (before ++ (url, fst (scrape_and_check_images url session t)) :: after)
         acc u
       = collect_batch (before ++ after) acc u.
Proof.
  intros H. destruct (fetch_page_fails _ _ _ H) as [msg Hf].
  assert (Hs : scrape_and_check_images url session t
               = (Ok [], (t ++ [Sleep 1; Http (GET url 10 false true);
                                Log ERROR msg])%list)).
  { unfold scrape_and_check_images, time_sleep, emit.
    unfold bind at 1. unfold bind at 1. change REQUEST_DELAY with 1%Z.
    rewrite Hf. unfold ret. now rewrite <- app_assoc. }
  split; [now exists msg|].
  intros before after acc u. rewrite Hs. apply collect_batch_skip.
Qed.

(** ** C9: [data:image] URLs *)

Lemma split_scheme_data_image (r : string) :
  Urllib.split_scheme ("data:image" ++ r) = ("data", "image" ++ r).
Proof.
  unfold Urllib.split_scheme.
  change ("data:image" ++ r) with ("data" ++ String ":" ("image" ++ r)).
  rewrite find_app by reflexivity.
  rewrite slice_to_app, slice_from_app_cons. reflexivity.
Qed.

(** A URL that starts with ["data:image"] has the scheme [data] and what
    follows the colon does not start with ["//"]: the netloc is empty. *)
Lemma urlparse_data_image (url : string) :
  startswith url "data:image" = true ->
  exists parsed, urlparse url = Ok parsed /\ Urllib.netloc parsed = "".
Proof.
  intros H. apply startswith_inv in H as [r ->].
  unfold urlparse, Urllib.urlparse, Urllib.urlsplit.
  set (r' := remove_char "010" (remove_char "013" (remove_char "009" r))).
  replace (fold_left _ _ (lstrip_by _ ("data:image" ++ r)))
    with ("data:image" ++ r') by reflexivity.
  rewrite split_scheme_data_image.
  change (startswith ("image" ++ r') "//") with false.
  cbv beta iota. cbn [rbind].
  destruct (if has_char "#" _ then _ else _) as [u1 frag].
  destruct (if has_char "?" _ then _ else _) as [u2 q].
  cbn [rbind Urllib._checknetloc Urllib.sr_scheme Urllib.sr_netloc
       Urllib.sr_url Urllib.sr_query Urllib.sr_fragment].
  destruct (if _ && has_char ";" _ then _ else _) as [u3 ps].
  eexists. split; reflexivity.
Qed.

Lemma startswith_lower_data_image (url : string) :
  startswith url "data:image" = true ->
  startswith (lower url) "data:image" = true.
Proof.
  intros H. apply startswith_inv in H as [r ->].
  rewrite lower_app. apply (startswith_app "data:image").
Qed.

Lemma contains_startswith (s p : string) :
  startswith s p = true -> contains p s = true.
Proof. intros H. now rewrite contains_unfold, H. Qed.

Lemma find_skip_prefix (c : ascii) (p r : string) :
  has_char c p = false ->
  find c (p ++ r)
  = match find c r with
    | Some i => Some (String.length p + i)
    | None => None
    end.
Proof.
  induction p as [|a p IH]; simpl; intros H.
  - now destruct (find c r).
  - apply orb_false_iff in H as [Ha Hp]. rewrite Ha, (IH Hp).
    now destruct (find c r).
Qed.

(** Shortening keeps the ["data:image"] start: the comma the split looks
    for comes after it. *)
Lemma shorten_keeps_data_image (resolved stored : string) :
  startswith resolved "data:image" = true ->
  shorten_data_uri resolved = Ok stored ->
  startswith stored "data:image" = true.
Proof.
  intros H Hs. unfold shorten_data_uri in Hs. rewrite H in Hs.
  apply startswith_inv in H as [r ->].
  unfold split1 in Hs.
  rewrite (find_skip_prefix "," "data:image" r) in Hs by reflexivity.
  destruct (find "," r) as [i|]; [|discriminate].
  injection Hs as <-. reflexivity.
Qed.

Lemma classify_data_image (url : string) :
  startswith url "data:image" = true ->
  contains "s3.amazonaws.com" (lower url) = false ->
  classify_image_storage url = "Base64 Encoded Image".
Proof.
  intros H Hs3. unfold classify_image_storage, STORAGE_CLASSIFICATION.
  unfold get_storage_classification. cbn [classify_loop].
  change (lower "s3.amazonaws.com") with "s3.amazonaws.com".
  change (lower "data:image") with "data:image".
  rewrite Hs3.
  now rewrite (contains_startswith _ _ (startswith_lower_data_image _ H)).
Qed.

Lemma check_image_data_image (stored : string) (session : Session) (u : trace) :
  startswith stored "data:image" = true ->
  ~ In "" ALLOWED_IMG_DOMAINS ->
  exists m1 m2,
    check_image stored session u
    = (Ok (Some "CSP Violation"), (u ++ [Log DEBUG m1; Log INFO m2])%list).
Proof.
  intros Hd Hempty.
  destruct (urlparse_data_image _ Hd) as (parsed & Hp & Hn).
  destruct (is_allowed_domain_eval stored parsed u Hp) as [m1 Ha].
  rewrite Hn, (empty_netloc_not_allowed Hempty) in Ha.
  destruct (check_image_csp stored session _ _ Ha) as [m2 Hc].
  exists m1, m2. rewrite Hc. now rewrite <- app_assoc.
Qed.

(** C9, as amended.  Let the resolved source of an image start with
    ["data:image"] and be shortened to [stored], and let the allow-list hold
    no empty string.  Then [stored] still starts with ["data:image"];
    [check_image] returns ["CSP Violation"] for it without any request; the
    loop body appends one record for it, with that reason; and
    [classify_image_storage] gives ["Base64 Encoded Image"] provided the
    lowercased URL does not contain ["s3.amazonaws.com"], the one pattern
    ahead of ["data:image"] in the table, and ["Amazon Web Services"] when
    it does. *)
Theorem data_image_flagged (url : string) (soup : Soup) (session : Session)
    (acc : list ImageRecord) (src resolved stored article_id : string)
    (t : trace) :
  urljoin url src = Ok resolved ->
  startswith resolved "data:image" = true ->
  shorten_data_uri resolved = Ok stored ->
  ~ In "" ALLOWED_IMG_DOMAINS ->
  get_article_id url = Ok article_id ->
  startswith stored "data:image" = true
  /\ (forall u, exists u',
        check_image stored session u = (Ok (Some "CSP Violation"), u')
        /\ net_calls u' = net_calls u)
  /\ (exists r t',
        check_and_record url soup session acc src t = (Ok (acc ++ [r])%list, t')
        /\ net_calls t' = net_calls t
        /\ Broken_Image_URL r = stored
        /\ HTTP_Status_Code r = "CSP Violation"
        /\ Storage_Location r = classify_image_storage stored)
  /\ (contains "s3.amazonaws.com" (lower stored) = false ->
      classify_image_storage stored = "Base64 Encoded Image")
  /\ (contains "s3.amazonaws.com" (lower stored) = true ->
      classify_image_storage stored = "Amazon Web Services").
Proof.
  intros Hjoin Hdata Hshort Hempty Haid.
  pose proof (shorten_keeps_data_image _ _ Hdata Hshort) as Hstored.
  split; [exact Hstored|]. split; [|split; [|split]].
  - intros u.
    destruct (check_image_data_image stored session u Hstored Hempty)
      as (m1 & m2 & Hc).
    eexists. split; [exact Hc|].
    rewrite net_calls_app. simpl. apply app_nil_r.
  - unfold check_and_record.
    unfold bind at 1, lift at 1. rewrite Hjoin.
    unfold bind at 1, logging_debug at 1, emit at 1.
    unfold bind at 1, lift at 1. rewrite Hshort.
    unfold bind at 1.
    match goal with
    | |- context [check_image stored session ?u] =>
        destruct (check_image_data_image stored session u Hstored Hempty)
          as (m1 & m2 & Hc)
    end.
    rewrite Hc.
    change ("CSP Violation" =? "") with false. cbn [negb].
    unfold bind at 1, logging_info at 1, emit at 1.
    unfold bind at 1, lift at 1. rewrite Haid. unfold ret.
    eexists _, _. split; [reflexivity|].
    split; [|repeat split].
    rewrite !net_calls_app. simpl. now rewrite !app_nil_r.
  - now apply classify_data_image.
  - intros Hs3. unfold classify_image_storage, STORAGE_CLASSIFICATION.
    unfold get_storage_classification. cbn [classify_loop].
    change (lower "s3.amazonaws.com") with "s3.amazonaws.com".
    now rewrite Hs3.
Qed.

(** ** C10: a [data:image] URL without a comma *)

Lemma check_and_record_no_comma url soup session acc src resolved t :
  urljoin url src = Ok resolved ->
  startswith resolved "data:image" = true ->
  has_char "," resolved = false ->
  exists t',
    check_and_record url soup session acc src t
    = (Raise (ValueError "not enough values to unpack (expected 2, got 1)"),
       t').
Proof.
  intros Hjoin Hdata Hcomma. unfold check_and_record.
  unfold bind at 1, lift at 1. rewrite Hjoin.
  unfold bind at 1, logging_debug at 1, emit at 1.
  unfold bind at 1, lift at 1.
  unfold shorten_data_uri, split1. rewrite Hdata, (find_None _ _ Hcomma).
  eexists. reflexivity.
Qed.

Lemma for_fold_raises {A S} (body : S -> A -> M S) (x : A) :
  (forall s t, exists e t', body s x t = (Raise e, t')) ->
  forall before after s t,
    exists e t', for_fold (before ++ x :: after) s body t = (Raise e, t').
Proof.
  intros Hx before after.
  induction before as [|y before IH]; intros s t; cbn [for_fold app].
  - destruct (Hx s t) as (e & t' & H). exists e, t'. unfold bind. now rewrite H.
  - unfold bind. destruct (body s y t) as [[s1|e] t1]; [apply IH|].
    now exists e, t1.
Qed.

Lemma fetch_page_succeeds url session t response :
  session t (GET url 10 false true) = Ok response ->
  ~ (400 <= status_code response < 600)%Z ->
  fetch_page url session t
  = (Ok (Some response), (t ++ [Http (GET url 10 false true)])%list).
Proof.
  intros H Hs. unfold fetch_page, try_except, session_get, send.
  unfold bind at 1. rewrite H. unfold bind at 1.
  now rewrite (raise_for_status_accepts _ _ Hs).
Qed.

Lemma scrape_fetched url session t response images :
  session (t ++ [Sleep 1])%list (GET url 10 false true) = Ok response ->
  ~ (400 <= status_code response < 600)%Z ->
  select_one_img_src (BeautifulSoup (content response) "html.parser")
                     ".article-detail-card-content" = Some images ->
  exists msg,
    scrape_and_check_images url session t
    = for_fold images []
        (check_and_record url
           (BeautifulSoup (content response) "html.parser") session)
        (t ++ [Sleep 1; Http (GET url 10 false true); Log DEBUG msg])%list.
Proof.
  intros H Hs Hsel. unfold scrape_and_check_images, time_sleep, emit.
  unfold bind at 1. unfold bind at 1. change REQUEST_DELAY with 1%Z.
  rewrite (fetch_page_succeeds _ _ _ _ H Hs).
  unfold container_selectors. cbn [for_fold].
  unfold collect_images. rewrite Hsel.
  unfold bind at 1. unfold bind at 1. unfold bind at 1.
  unfold logging_debug at 1, emit at 1, ret at 1, ret at 1.
  eexists. rewrite <- !app_assoc. reflexivity.
Qed.

(** C10.  Let the page be fetched and its container hold an image whose
    resolved source starts with ["data:image"] and has no comma.  Then
    [scrape_and_check_images] raises: it returns neither records nor the
    empty list.  When that image is the first of the page, the exception is
    the [ValueError] of the two-name unpacking. *)
Theorem scrape_data_image_without_comma (url : string) (session : Session)
    (t : trace) (response : Response) (before after : list string)
    (src resolved : string) :
  session (t ++ [Sleep 1])%list (GET url 10 false true) = Ok response ->
  ~ (400 <= status_code response < 600)%Z ->
  select_one_img_src (BeautifulSoup (content response) "html.parser")
                     ".article-detail-card-content"
  = Some (before ++ src :: after)%list ->
  urljoin url src = Ok resolved ->
  startswith resolved "data:image" = true ->
  has_char "," resolved = false ->
  (exists e t', scrape_and_check_images url session t = (Raise e, t'))
  /\ (before = [] ->
      exists t',
        scrape_and_check_images url session t
        = (Raise (ValueError "not enough values to unpack (expected 2, got 1)"),
           t')).
Proof.
  intros H Hs Hsel Hjoin Hdata Hcomma.
  destruct (scrape_fetched _ _ _ _ _ H Hs Hsel) as [msg ->].
  split.
  - apply for_fold_raises. intros s u.
    destruct (check_and_record_no_comma url
                (BeautifulSoup (content response) "html.parser") session s
                src resolved u Hjoin Hdata Hcomma) as [u' Hr].
    now exists (ValueError "not enough values to unpack (expected 2, got 1)"), u'.
  - intros ->. cbn [app for_fold].
    match goal with
    | |- context [check_and_record ?a ?b ?c ?d ?e] =>
        destruct (check_and_record_no_comma a b c d e resolved
                    (t ++ [Sleep 1; Http (GET url 10 false true);
                           Log DEBUG msg])%list Hjoin Hdata Hcomma) as [u' Hr]
    end.
    exists u'. unfold bind. now rewrite Hr.
Qed.

(** ** C8: writing the report *)

Lemma save_to_csv_mkdir_raises data filename_prefix t e :
  let directory :=
    Pathlib.str
      (Pathlib.parent
         (Pathlib.truediv (Pathlib.Path OUTPUT_DIRECTORY)
            (filename_prefix ++ "_" ++ strftime_now t ++ ".csv"))) in
  os t (Mkdir directory true true) = Raise e ->
  save_to_csv data filename_prefix t
  = (Raise e, (t ++ [Fs (Mkdir directory true true)])%list).
Proof.
  intros directory H. unfold save_to_csv. unfold bind at 1.
  cbv beta iota zeta. fold directory. unfold bind at 1.
  unfold fs_call at 1. now rewrite H.
Qed.

(** Once the directory exists, whatever fails between opening the file and
    closing it is caught: [save_to_csv] returns, and its last act is a log
    line, the error one when something was raised. *)
Lemma save_to_csv_write_failure_caught data filename_prefix t :
  os t (Mkdir
          (Pathlib.str
             (Pathlib.parent
                (Pathlib.truediv (Pathlib.Path OUTPUT_DIRECTORY)
                   (filename_prefix ++ "_" ++ strftime_now t ++ ".csv"))))
          true true) = Ok tt ->
  exists t0 l msg,
    save_to_csv data filename_prefix t = (Ok tt, (t0 ++ [Log l msg])%list)
    /\ (l = INFO
        \/ (l = ERROR
            /\ exists e, msg = "Failed to save CSV file. Error: " ++ str_exn e)).
Proof.
  intros H. unfold save_to_csv. unfold bind at 1. cbv beta iota zeta.
  unfold bind at 1.
  unfold fs_call at 1. rewrite H. unfold try_except. unfold bind at 1.
  match goal with
  | |- context [with_open ?f ?m ?b ?u] =>
      destruct (with_open f m b u) as [[[]|e] u1]
  end.
  - unfold logging_info, emit. eexists _, _, _. split; [reflexivity|now left].
  - unfold logging_error, emit. eexists _, _, _. split; [reflexivity|].
    right. split; [reflexivity|]. now exists e.
Qed.

(** ** Further properties of the string functions *)

Lemma lower_char_idempotent (c : ascii) :
  lower_char (lower_char c) = lower_char c.
Proof.
  destruct c as [[] [] [] [] [] [] [] []]; reflexivity.
Qed.

Lemma lower_idempotent (s : string) : lower (lower s) = lower s.
Proof.
  induction s as [|c s IH]; simpl; [reflexivity|].
  now rewrite lower_char_idempotent, IH.
Qed.

Lemma find_Some_split (c : ascii) (s : string) (i : nat) :
  find c s = Some i ->
  s = slice_to i s ++ String c (slice_from (S i) s)
  /\ String.length (slice_to i s) = i
  /\ has_char c (slice_to i s) = false.
Proof.
  revert i; induction s as [|a s IH]; simpl; intros i H; [discriminate|].
  destruct (Ascii.eqb a c) eqn:E.
  - injection H as <-. apply Ascii.eqb_eq in E. subst a.
    simpl. repeat split; now destruct s.
  - destruct (find c s) as [j|]; [|discriminate].
    injection H as <-. destruct (IH j eq_refl) as (Hs & Hl & Hc).
    split; [|split].
    + change (String a s = String a (slice_to j s
                                     ++ String c (slice_from (S j) s))).
      now rewrite <- Hs.
    + simpl. now rewrite Hl.
    + simpl. now rewrite E, Hc.
Qed.

Lemma find_Some_has_char (c : ascii) (s : string) :
  has_char c s = true -> exists i, find c s = Some i.
Proof.
  induction s as [|a s IH]; simpl; intros H; [discriminate|].
  destruct (Ascii.eqb a c); [now exists 0|].
  destruct (IH H) as [i ->]. now exists (S i).
Qed.

Lemma slice_from_app_length (p r : string) :
  slice_from (String.length p) (p ++ r) = r.
Proof. induction p as [|a p IH]; simpl; [now destruct r|exact IH]. Qed.

Lemma string_length_append (a b : string) :
  String.length (a ++ b) = String.length a + String.length b.
Proof. induction a as [|x a IH]; simpl; [reflexivity|now rewrite IH]. Qed.

(** ** The classifier, further *)

Lemma classify_loop_range table lower_url :
  In (classify_loop table lower_url) ("Other" :: map snd table).
Proof.
  induction table as [|[k l] rest IH]; simpl; [now left|].
  destruct (contains (lower k) lower_url); [right; now left|].
  destruct IH as [IH|IH]; [now left|right; now right].
Qed.

(** X1.  The classification does not depend on the letter case of the URL:
    the lowercased URL gets the label of the URL. *)
Theorem classify_image_storage_case_insensitive (url : string) :
  classify_image_storage (lower url) = classify_image_storage url.
Proof. unfold classify_image_storage. now rewrite lower_idempotent. Qed.

(** X2.  The classifier answers with ["Other"] or with a label of the
    table, whatever the URL. *)
Theorem classify_image_storage_range (url : string) :
  In (classify_image_storage url)
     ("Other" :: map snd STORAGE_CLASSIFICATION).
Proof. apply classify_loop_range. Qed.

(** ** Shortening, further *)

(** X3.  [shorten_data_uri] raises exactly for the URLs that start with
    ["data:image"] and hold no comma, and then it raises the [ValueError] of
    the unpacking; every other URL gets a result. *)
Theorem shorten_data_uri_raises_iff (url : string) :
  (startswith url "data:image" = true /\ has_char "," url = false ->
   shorten_data_uri url
   = Raise (ValueError "not enough values to unpack (expected 2, got 1)"))
  /\ (~ (startswith url "data:image" = true /\ has_char "," url = false) ->
      exists stored, shorten_data_uri url = Ok stored).
Proof.
  unfold shorten_data_uri, split1. split.
  - intros [-> Hc]. now rewrite (find_None _ _ Hc).
  - intros H. destruct (startswith url "data:image"); [|now exists url].
    destruct (has_char "," url) eqn:Hc; [|exfalso; now apply H].
    destruct (find_Some_has_char _ _ Hc) as [i ->]. eexists. reflexivity.
Qed.

Lemma shorten_data_uri_split (url stored : string) :
  startswith url "data:image" = true ->
  shorten_data_uri url = Ok stored ->
  exists prefix payload,
    url = prefix ++ String "," payload
    /\ has_char "," prefix = false
    /\ find "," url = Some (String.length prefix)
    /\ stored
       = prefix ++ ","
         ++ (if (40 <? String.length payload)%nat
             then slice_to 20 payload ++ "..." ++ slice_last 20 payload
             else payload).
Proof.
  intros Hd H. unfold shorten_data_uri, split1 in H. rewrite Hd in H.
  destruct (find "," url) as [i|] eqn:Hf; [|discriminate].
  destruct (find_Some_split _ _ _ Hf) as (Hs & Hl & Hc).
  exists (slice_to i url), (slice_from (S i) url).
  split; [exact Hs|]. split; [exact Hc|]. split; [now rewrite Hl|].
  now injection H as <-.
Qed.

(** X4.  Shortening a shortened URL changes nothing. *)
Theorem shorten_data_uri_idempotent (url stored : string) :
  shorten_data_uri url = Ok stored -> shorten_data_uri stored = Ok stored.
Proof.
  intros H. destruct (startswith url "data:image") eqn:Hd.
  - pose proof (shorten_keeps_data_image _ _ Hd H) as Hs.
    destruct (shorten_data_uri_split _ _ Hd H)
      as (prefix & payload & _ & Hc & _ & ->).
    unfold shorten_data_uri. rewrite Hs.
    change (prefix ++ "," ++ ?x) with (prefix ++ String "," x).
    rewrite (split1_app _ _ _ Hc).
    destruct (40 <? String.length payload)%nat eqn:E; [|now rewrite E].
    apply Nat.ltb_lt in E.
    destruct (first_middle_last 20 payload) as (_ & _ & Hf & Hl); [lia|].
    set (f := slice_to 20 payload) in *.
    set (l := slice_last 20 payload) in *.
    assert (Hlen : String.length (f ++ "..." ++ l) = 43).
    { rewrite !string_length_append, Hf, Hl. reflexivity. }
    rewrite Hlen. cbn [Nat.ltb Nat.leb].
    assert (Hfirst : slice_to 20 (f ++ "..." ++ l) = f).
    { rewrite <- Hf at 1. apply slice_to_app. }
    assert (Hlast : slice_last 20 (f ++ "..." ++ l) = l).
    { unfold slice_last. rewrite Hlen.
      change (43 - 20) with (20 + 3). rewrite slice_from_add.
      rewrite <- Hf at 1. rewrite slice_from_app_length. reflexivity. }
    now rewrite Hfirst, Hlast.
  - unfold shorten_data_uri in H. rewrite Hd in H. injection H as <-.
    unfold shorten_data_uri. now rewrite Hd.
Qed.

(** X5.  What is stored for a [data:image] URL holds at most 43 characters
    after the first comma, so 44 more than the position of that comma; the
    stored URL is never more than 2 characters longer than the URL, and not
    longer at all once the payload has 43 characters. *)
Theorem shorten_data_uri_length (url stored : string) :
  startswith url "data:image" = true ->
  shorten_data_uri url = Ok stored ->
  exists i,
    find "," url = Some i
    /\ String.length stored <= i + 44
    /\ String.length stored <= String.length url + 2
    /\ (i + 44 <= String.length url ->
        String.length stored <= String.length url).
Proof.
  intros Hd H.
  destruct (shorten_data_uri_split _ _ Hd H)
    as (prefix & payload & -> & _ & Hf & ->).
  exists (String.length prefix). split; [exact Hf|].
  rewrite !string_length_append. cbn [String.length].
  destruct (40 <? String.length payload)%nat eqn:E.
  - apply Nat.ltb_lt in E.
    destruct (first_middle_last 20 payload) as (_ & _ & Hfl & Hl); [lia|].
    rewrite !string_length_append, Hfl, Hl. cbn [String.length]. lia.
  - apply Nat.ltb_ge in E. lia.
Qed.

(** ** [check_image], further *)

Lemma check_image_urlparse_raises url session t e :
  urlparse url = Raise e -> check_image url session t = (Raise e, t).
Proof.
  intros H. unfold check_image, is_allowed_domain, lift.
  unfold bind at 1. unfold bind at 1. now rewrite H.
Qed.

Lemma check_image_head_raises url session t t1 e :
  is_allowed_domain url t = (Ok true, t1) ->
  session t1 (HEAD url 10 true) = Raise e ->
  check_image url session t
  = if is_RequestException e
    then (Ok (Some ("Network Error: " ++ str_exn e)),
          (t1 ++ [Http (HEAD url 10 true);
                  Log ERROR ("Network error for image " ++ url ++ ": "
                             ++ str_exn e)])%list)
    else (Raise e, (t1 ++ [Http (HEAD url 10 true)])%list).
Proof.
  intros Hallowed Hhead.
  unfold check_image. rewrite (bind_Ok _ _ _ _ _ Hallowed).
  cbn [negb]. unfold try_except, session_head, send.
  unfold bind at 1. rewrite Hhead.
  destruct (is_RequestException e); [|reflexivity].
  unfold bind, logging_error, emit, ret. now rewrite <- app_assoc.
Qed.

Lemma check_image_head_answers url session t t1 r1 :
  is_allowed_domain url t = (Ok true, t1) ->
  session t1 (HEAD url 10 true) = Ok r1 ->
  status_code r1 <> 405%Z ->
  exists verdict t3,
    check_image url session t = (Ok verdict, t3)
    /\ net_calls t3 = (net_calls t ++ [HEAD url 10 true])%list
    /\ decided_by (status_code r1) verdict.
Proof.
  intros Hallowed Hhead H405.
  pose proof (is_allowed_domain_trace _ _ _ _ Hallowed) as Ht1.
  unfold check_image. rewrite (bind_Ok _ _ _ _ _ Hallowed).
  cbn [negb]. unfold try_except, session_head, session_get, send.
  unfold bind at 1. rewrite Hhead.
  apply Z.eqb_neq in H405. rewrite H405.
  unfold bind at 1. unfold ret at 1.
  unfold bind at 1. unfold logging_debug at 1, emit at 1.
  match goal with
  | |- context [(if negb _ then _ else _) ?tr] =>
      destruct (status_verdict (status_code r1) tr url)
        as (verdict & t' & Hv & Hn & Hd)
  end.
  rewrite Hv. exists verdict, t'. split; [reflexivity|]. split; [|exact Hd].
  rewrite Hn, !net_calls_app, Ht1. simpl. now rewrite app_nil_r.
Qed.

Lemma check_image_head_405 url session t t1 r1 :
  is_allowed_domain url t = (Ok true, t1) ->
  session t1 (HEAD url 10 true) = Ok r1 ->
  status_code r1 = 405%Z ->
  exists res t3,
    check_image url session t = (res, t3)
    /\ net_calls t3
       = (net_calls t ++ [HEAD url 10 true; GET url 10 true true])%list
    /\ exists u,
         (exists verdict r2,
             session u (GET url 10 true true) = Ok r2
             /\ res = Ok verdict
             /\ decided_by (status_code r2) verdict)
         \/ (exists e,
                session u (GET url 10 true true) = Raise e
                /\ res = if is_RequestException e
                         then Ok (Some ("Network Error: " ++ str_exn e))
                         else Raise e).
Proof.
  intros Hallowed Hhead H405.
  pose proof (is_allowed_domain_trace _ _ _ _ Hallowed) as Ht1.
  unfold check_image. rewrite (bind_Ok _ _ _ _ _ Hallowed).
  cbn [negb]. unfold try_except, session_head, session_get, send.
  unfold bind at 1. rewrite Hhead.
  rewrite H405, Z.eqb_refl.
  unfold bind at 1. unfold bind at 1. unfold logging_debug at 1, emit at 1.
  rewrite <- app_assoc. cbn [app].
  destruct (session _ (GET url 10 true true)) as [r2|e] eqn:Hget.
  - unfold bind at 1. unfold logging_debug at 1, emit at 1.
    match goal with
    | |- context [(if negb _ then _ else _) ?tr] =>
        destruct (status_verdict (status_code r2) tr url)
          as (verdict & t' & Hv & Hn & Hd)
    end.
    rewrite Hv. exists (Ok verdict), t'. split; [reflexivity|]. split.
    + rewrite Hn, !net_calls_app, Ht1. simpl.
      now rewrite app_nil_r, <- app_assoc.
    + eexists. left. exists verdict, r2. now split; [exact Hget|].
  - destruct (is_RequestException e) eqn:E.
    + eexists _, _. split; [reflexivity|]. split.
      * unfold bind, logging_error, emit, ret.
        rewrite !net_calls_app, Ht1. simpl.
        now rewrite app_nil_r, <- app_assoc.
      * eexists. right. exists e. split; [exact Hget|]. now rewrite E.
    + eexists _, _. split; [reflexivity|]. split.
      * rewrite !net_calls_app, Ht1. simpl. now rewrite <- app_assoc.
      * eexists. right. exists e. split; [exact Hget|]. now rewrite E.
Qed.

Lemma is_allowed_domain_cases url t :
  (exists e, urlparse url = Raise e /\ is_allowed_domain url t = (Raise e, t))
  \/ (exists b t1, is_allowed_domain url t = (Ok b, t1)).
Proof.
  unfold is_allowed_domain, bind, lift, logging_debug, emit, ret.
  destruct (urlparse url) as [parsed|e].
  - right. eexists _, _. reflexivity.
  - left. now exists e.
Qed.

Lemma decided_by_nonempty status verdict :
  decided_by status verdict -> verdict <> Some "".
Proof.
  intros [Hp Hf].
  destruct (Z_le_dec 200 status) as [H1|H1];
    [destruct (Z_le_dec status 299) as [H2|H2]|].
  - rewrite Hp by lia. discriminate.
  - rewrite Hf by lia. discriminate.
  - rewrite Hf by lia. discriminate.
Qed.

(** X6.  Whatever the session answers, [check_image] issues no request, or
    the HEAD alone, or the HEAD followed by the one GET, all for the URL it
    was given: never more than two requests. *)
Theorem check_image_request_bound (url : string) (session : Session)
    (t : trace) :
  exists calls,
    net_calls (snd (check_image url session t))
    = (net_calls t ++ calls)%list
    /\ (calls = []
        \/ calls = [HEAD url 10 true]
        \/ calls = [HEAD url 10 true; GET url 10 true true]).
Proof.
  destruct (is_allowed_domain_cases url t)
    as [(e & Hp & _)|(b & t1 & Hallowed)].
  - rewrite (check_image_urlparse_raises _ session t _ Hp).
    exists []. split; [now rewrite app_nil_r|now left].
  - pose proof (is_allowed_domain_trace _ _ _ _ Hallowed) as Ht1.
    destruct b.
    + destruct (session t1 (HEAD url 10 true)) as [r1|e] eqn:Hhead.
      * destruct (Z.eq_dec (status_code r1) 405) as [H405|H405].
        -- destruct (check_image_head_405 _ _ _ _ _ Hallowed Hhead H405)
             as (res & t3 & -> & Hn & _).
           eexists. split; [exact Hn|]. now right; right.
        -- destruct (check_image_head_answers _ _ _ _ _ Hallowed Hhead H405)
             as (v & t3 & -> & Hn & _).
           eexists. split; [exact Hn|]. now right; left.
      * rewrite (check_image_head_raises _ _ _ _ _ Hallowed Hhead).
        exists [HEAD url 10 true]. split; [|now right; left].
        destruct (is_RequestException e); cbn [snd];
          rewrite !net_calls_app, Ht1; simpl; now rewrite ?app_nil_r.
    + destruct (check_image_csp url session _ _ Hallowed) as [msg ->].
      exists []. cbn [snd]. split; [|now left].
      now rewrite net_calls_log, Ht1, app_nil_r.
Qed.

(** X7.  For a URL [urlparse] accepts and a session that raises nothing
    but [RequestException]s, [check_image] raises nothing: the failure is
    its result.  The reason it returns is never the empty string, so every
    failure is kept by the truth test of the caller. *)
Theorem check_image_contains_failures (url : string) (session : Session)
    (t : trace) :
  (exists parsed, urlparse url = Ok parsed) ->
  (forall u r e, session u r = Raise e -> is_RequestException e = true) ->
  exists verdict,
    fst (check_image url session t) = Ok verdict /\ verdict <> Some "".
Proof.
  intros [parsed Hp] Hsession.
  destruct (is_allowed_domain_eval url parsed t Hp) as [msg Hallowed].
  destruct (existsb _ _).
  - destruct (session (t ++ [Log DEBUG msg])%list (HEAD url 10 true))
      as [r1|e] eqn:Hhead.
    + destruct (Z.eq_dec (status_code r1) 405) as [H405|H405].
      * destruct (check_image_head_405 _ _ _ _ _ Hallowed Hhead H405)
          as (res & t3 & -> & _ & u
              & [(v & r2 & _ & -> & Hd)|(e & Hget & ->)]).
        -- exists v. split; [reflexivity|]. eapply decided_by_nonempty, Hd.
        -- rewrite (Hsession _ _ _ Hget).
           eexists. split; [reflexivity|discriminate].
      * destruct (check_image_head_answers _ _ _ _ _ Hallowed Hhead H405)
          as (v & t3 & -> & _ & Hd).
        exists v. split; [reflexivity|]. eapply decided_by_nonempty, Hd.
    + rewrite (check_image_head_raises _ _ _ _ _ Hallowed Hhead).
      rewrite (Hsession _ _ _ Hhead).
      eexists. split; [reflexivity|discriminate].
  - destruct (check_image_csp url session _ _ Hallowed) as [m ->].
    eexists. split; [reflexivity|discriminate].
Qed.

(** X8.  When the HEAD fails in the transport, [check_image] reports
    ["Network Error: <detail>"] after that one request: the GET fallback is
    for the status 405 only.  An exception of another kind is not caught
    and leaves [check_image]. *)
Theorem check_image_head_failure (url : string) (session : Session)
    (t t1 : trace) (e : exn) :
  is_allowed_domain url t = (Ok true, t1) ->
  session t1 (HEAD url 10 true) = Raise e ->
  net_calls (snd (check_image url session t))
  = (net_calls t ++ [HEAD url 10 true])%list
  /\ fst (check_image url session t)
     = if is_RequestException e
       then Ok (Some ("Network Error: " ++ str_exn e))
       else Raise e.
Proof.
  intros Hallowed Hhead.
  pose proof (is_allowed_domain_trace _ _ _ _ Hallowed) as Ht1.
  rewrite (check_image_head_raises _ _ _ _ _ Hallowed Hhead).
  destruct (is_RequestException e); cbn [fst snd];
    (split; [|reflexivity]);
    rewrite !net_calls_app, Ht1; simpl; now rewrite ?app_nil_r.
Qed.

(** ** The records of a page, further *)

Lemma subseq_length {A} (kept all : list A) :
  subseq kept all -> List.length kept <= List.length all.
Proof. induction 1; simpl; lia. Qed.

Lemma subseq_snoc_skip {A} (kept all : list A) (x : A) :
  subseq kept all -> subseq kept (all ++ [x]).
Proof.
  induction 1; simpl.
  - apply subseq_skip, subseq_nil.
  - now apply subseq_skip.
  - now apply subseq_keep.
Qed.

Lemma subseq_snoc_keep {A} (kept all : list A) (x : A) :
  subseq kept all -> subseq (kept ++ [x]) (all ++ [x]).
Proof.
  induction 1; simpl.
  - apply subseq_keep, subseq_nil.
  - now apply subseq_skip.
  - now apply subseq_keep.
Qed.

Lemma check_and_record_step url soup session acc src t acc' t' :
  check_and_record url soup session acc src t = (Ok acc', t') ->
  acc' = acc
  \/ exists r, acc' = (acc ++ [r])%list /\ record_from url soup src r.
Proof.
  intros H. unfold check_and_record in H.
  apply bind_Ok_inv in H as (resolved & t1 & Hjoin & H).
  apply lift_Ok_inv in Hjoin as [Hjoin ->].
  apply bind_Ok_inv in H as ([] & t2 & _ & H).
  apply bind_Ok_inv in H as (stored & t3 & Hshort & H).
  apply lift_Ok_inv in Hshort as [Hshort ->].
  apply bind_Ok_inv in H as (reason & t4 & _ & H).
  destruct reason as [reason|];
    [|unfold ret in H; injection H as <- _; now left].
  destruct (reason =? "") eqn:E; cbn [negb] in H;
    [unfold ret in H; injection H as <- _; now left|].
  apply bind_Ok_inv in H as ([] & t5 & _ & H).
  apply bind_Ok_inv in H as (article_id & t6 & Haid & H).
  apply lift_Ok_inv in Haid as [Haid ->].
  unfold ret in H. injection H as <- _.
  right. eexists. split; [reflexivity|].
  exists resolved. cbn.
  repeat split; try assumption. now apply String.eqb_neq in E.
Qed.

Lemma for_fold_records url soup session images :
  forall done kept acc t acc' t',
    subseq kept done ->
    Forall2 (record_from url soup) kept acc ->
    for_fold images acc (check_and_record url soup session) t = (Ok acc', t') ->
    exists kept',
      subseq kept' (done ++ images)
      /\ Forall2 (record_from url soup) kept' acc'.
Proof.
  induction images as [|src images IH]; intros done kept acc t acc' t' Hs Hf H.
  - cbn [for_fold] in H. unfold ret in H. injection H as <- _.
    exists kept. now rewrite app_nil_r.
  - cbn [for_fold] in H.
    apply bind_Ok_inv in H as (acc1 & t1 & Hstep & H).
    replace (done ++ src :: images)%list with ((done ++ [src]) ++ images)%list
      by now rewrite <- app_assoc.
    apply check_and_record_step in Hstep as [->|(r & -> & Hr)].
    + eapply IH; [|exact Hf|exact H]. now apply subseq_snoc_skip.
    + eapply IH; [| |exact H].
      * apply subseq_snoc_keep, Hs.
      * apply Forall2_app; [exact Hf|]. now constructor.
Qed.

Lemma fetch_page_Ok_inv url session t fetched t' :
  fetch_page url session t = (Ok fetched, t') ->
  match fetched with
  | Some response => session t (GET url 10 false true) = Ok response
  | None => True
  end.
Proof.
  unfold fetch_page, try_except, session_get, send.
  unfold bind at 1.
  destruct (session t (GET url 10 false true)) as [response|e].
  - unfold bind at 1.
    destruct (raise_for_status response _) as [[[]|e] u].
    + unfold ret. intros H. now injection H as <- _.
    + destruct (is_RequestException e); [|discriminate].
      unfold bind, logging_error, emit, ret. intros H. now injection H as <- _.
  - destruct (is_RequestException e); [|discriminate].
    unfold bind, logging_error, emit, ret. intros H. now injection H as <- _.
Qed.

Lemma scrape_Ok_inv url session t recs t' :
  scrape_and_check_images url session t = (Ok recs, t') ->
  recs = []
  \/ exists response images kept,
       session (t ++ [Sleep 1])%list (GET url 10 false true) = Ok response
       /\ select_one_img_src (BeautifulSoup (content response) "html.parser")
            ".article-detail-card-content" = Some images
       /\ subseq kept images
       /\ Forall2 (record_from url
                     (BeautifulSoup (content response) "html.parser"))
            kept recs.
Proof.
  intros H. unfold scrape_and_check_images in H.
  apply bind_Ok_inv in H as ([] & t1 & Hsleep & H).
  unfold time_sleep, emit in Hsleep. injection Hsleep as <-.
  apply bind_Ok_inv in H as (fetched & t2 & Hfetch & H).
  apply fetch_page_Ok_inv in Hfetch.
  destruct fetched as [response|];
    [|unfold ret in H; injection H as <- _; now left].
  apply bind_Ok_inv in H as (images & t3 & Himages & H).
  unfold container_selectors in Himages. cbn [for_fold] in Himages.
  apply bind_Ok_inv in Himages as (images1 & t4 & Hc & Hr).
  unfold ret in Hr. injection Hr as -> ->.
  unfold collect_images in Hc.
  destruct (select_one_img_src _ _) as [found|] eqn:Hsel.
  - apply bind_Ok_inv in Hc as ([] & t5 & _ & Hc).
    unfold ret in Hc. injection Hc as <- _. cbn [app] in H.
    destruct (for_fold_records _ _ _ _ [] [] [] _ _ _
                (subseq_nil) (Forall2_nil _) H) as (kept & Hk & Hf).
    right. exists response, found, kept. now repeat split.
  - apply bind_Ok_inv in Hc as ([] & t5 & _ & Hc).
    unfold ret in Hc. injection Hc as <- _.
    cbn [for_fold] in H. unfold ret in H. injection H as <- _. now left.
Qed.

(** X9.  The records of a page follow the images of its container: each
    record is built from one image source, no source gives two records, and
    the records come in the order of the images.  There are never more
    records than images. *)
Theorem scrape_records_follow_images (url : string) (session : Session)
    (t t' : trace) (recs : list ImageRecord) :
  scrape_and_check_images url session t = (Ok recs, t') ->
  recs = []
  \/ exists response images kept,
       session (t ++ [Sleep 1])%list (GET url 10 false true) = Ok response
       /\ select_one_img_src (BeautifulSoup (content response) "html.parser")
            ".article-detail-card-content" = Some images
       /\ subseq kept images
       /\ Forall2 (record_from url
                     (BeautifulSoup (content response) "html.parser"))
            kept recs
       /\ List.length recs <= List.length images.
Proof.
  intros H. apply scrape_Ok_inv in H as [->|(response & images & kept & H)];
    [now left|].
  destruct H as (Hs & Hsel & Hk & Hf).
  right. exists response, images, kept. repeat split; try assumption.
  rewrite <- (Forall2_length Hf). now apply subseq_length.
Qed.

Lemma Forall2_right {A B} (R : A -> B -> Prop) (P : B -> Prop) xs ys :
  (forall x y, R x y -> P y) -> Forall2 R xs ys -> Forall P ys.
Proof. intros HR. induction 1; constructor; eauto. Qed.

(** X10.  All records of one page carry the page URL, the article ID of
    that URL and one and the same title. *)
Theorem scrape_records_share_page (url : string) (session : Session)
    (t t' : trace) (recs : list ImageRecord) :
  scrape_and_check_images url session t = (Ok recs, t') ->
  Forall (fun r => Page_URL r = url
                   /\ get_article_id url = Ok (Article_ID r)) recs
  /\ forall r1 r2, In r1 recs -> In r2 recs -> Title r1 = Title r2.
Proof.
  intros H. apply scrape_Ok_inv in H as [->|(response & images & kept & H)].
  - split; [constructor|]. intros r1 r2 [].
  - destruct H as (_ & _ & _ & Hf).
    set (soup := BeautifulSoup (content response) "html.parser") in *.
    assert (Hall : Forall (fun r => Page_URL r = url
                                    /\ get_article_id url = Ok (Article_ID r)
                                    /\ Title r = get_title soup) recs).
    { eapply Forall2_right; [|exact Hf].
      intros src r (resolved & _ & _ & _ & Hp & Ht & Ha & _). now repeat split. }
    split.
    + eapply Forall_impl; [|exact Hall]. intros r (Hp & Ha & _). now split.
    + rewrite Forall_forall in Hall. intros r1 r2 H1 H2.
      destruct (Hall _ H1) as (_ & _ & ->).
      destruct (Hall _ H2) as (_ & _ & ->). reflexivity.
Qed.

(** X11.  A page that is fetched and has no content container, or an empty
    one, gives the empty list and raises nothing; the page GET is the only
    request. *)
Theorem scrape_without_images (url : string) (session : Session)
    (t : trace) (response : Response) :
  session (t ++ [Sleep 1])%list (GET url 10 false true) = Ok response ->
  ~ (400 <= status_code response < 600)%Z ->
  select_one_img_src (BeautifulSoup (content response) "html.parser")
    ".article-detail-card-content" = None
  \/ select_one_img_src (BeautifulSoup (content response) "html.parser")
       ".article-detail-card-content" = Some [] ->
  exists msg,
    scrape_and_check_images url session t
    = (Ok [], (t ++ [Sleep 1; Http (GET url 10 false true);
                     Log DEBUG msg])%list).
Proof.
  intros H Hs [Hsel|Hsel].
  - unfold scrape_and_check_images, time_sleep, emit.
    unfold bind at 1. unfold bind at 1. change REQUEST_DELAY with 1%Z.
    rewrite (fetch_page_succeeds _ _ _ _ H Hs).
    unfold container_selectors. cbn [for_fold].
    unfold collect_images. rewrite Hsel.
    unfold bind at 1. unfold bind at 1. unfold bind at 1.
    unfold logging_debug at 1, emit at 1, ret at 1, ret at 1.
    cbn [for_fold]. unfold ret.
    eexists. rewrite <- !app_assoc. reflexivity.
  - destruct (scrape_fetched _ _ _ _ _ H Hs Hsel) as [msg ->].
    now exists msg.
Qed.

(** ** Counting the requests *)

Lemma issues_ret {A} (a : A) : issues_at_most (ret a) 0.
Proof. intros t. exists []. now rewrite app_nil_r. Qed.

Lemma issues_lift {A} (r : result A) : issues_at_most (lift r) 0.
Proof. intros t. exists []. now rewrite app_nil_r. Qed.

Lemma issues_log l msg : issues_at_most (emit (Log l msg)) 0.
Proof. intros t. now exists [Log l msg]. Qed.

Lemma issues_sleep secs : issues_at_most (emit (Sleep secs)) 0.
Proof. intros t. now exists [Sleep secs]. Qed.

Lemma issues_send session r : issues_at_most (send session r) 1.
Proof. intros t. now exists [Http r]. Qed.

Lemma issues_weaken {A} (m : M A) a b :
  a <= b -> issues_at_most m a -> issues_at_most m b.
Proof. intros Hab H t. destruct (H t) as (d & Hd & Hn). exists d. split; [exact Hd|lia]. Qed.

Lemma issues_bind {A B} (m : M A) (k : A -> M B) a b :
  issues_at_most m a -> (forall x, issues_at_most (k x) b) ->
  issues_at_most (bind m k) (a + b).
Proof.
  intros Hm Hk t. unfold bind.
  destruct (Hm t) as (d1 & Hd1 & Hn1).
  destruct (m t) as [[x|e] t1]; cbn [snd] in Hd1; subst t1.
  - destruct (Hk x (t ++ d1)%list) as (d2 & Hd2 & Hn2).
    exists (d1 ++ d2)%list. rewrite Hd2, app_assoc. split; [reflexivity|].
    rewrite net_calls_app, length_app. lia.
  - exists d1. split; [reflexivity|lia].
Qed.

Lemma issues_try_except {A} (body : M A) catches handler a b :
  issues_at_most body a -> (forall e, issues_at_most (handler e) b) ->
  issues_at_most (try_except body catches handler) (a + b).
Proof.
  intros Hm Hh t. unfold try_except.
  destruct (Hm t) as (d1 & Hd1 & Hn1).
  destruct (body t) as [[x|e] t1]; cbn [snd] in Hd1; subst t1.
  - exists d1. split; [reflexivity|lia].
  - destruct (catches e).
    + destruct (Hh e (t ++ d1)%list) as (d2 & Hd2 & Hn2).
      exists (d1 ++ d2)%list. rewrite Hd2, app_assoc. split; [reflexivity|].
      rewrite net_calls_app, length_app. lia.
    + exists d1. split; [reflexivity|lia].
Qed.

Lemma issues_for_fold {A St} (body : St -> A -> M St) (k : nat) (xs : list A) :
  (forall s x, In x xs -> issues_at_most (body s x) k) ->
  forall s, issues_at_most (for_fold xs s body) (k * List.length xs).
Proof.
  induction xs as [|x xs IH]; intros Hbody s; cbn [for_fold List.length].
  - rewrite Nat.mul_0_r. apply issues_ret.
  - replace (k * S (List.length xs)) with (k + k * List.length xs) by lia.
    apply issues_bind; [apply Hbody; now left|].
    intros s'. apply IH. intros s0 y Hy. apply Hbody. now right.
Qed.

Lemma issues_is_allowed_domain url : issues_at_most (is_allowed_domain url) 0.
Proof.
  unfold is_allowed_domain.
  apply (issues_bind _ _ 0 0); [apply issues_lift|]. intros parsed.
  apply (issues_bind _ _ 0 0); [apply issues_log|]. intros _. apply issues_ret.
Qed.

Lemma issues_check_image url session :
  issues_at_most (check_image url session) 2.
Proof.
  unfold check_image.
  apply (issues_bind _ _ 0 2); [apply issues_is_allowed_domain|].
  intros allowed. destruct allowed; cbn [negb].
  - apply (issues_try_except _ _ _ 2 0).
    + apply (issues_bind _ _ 1 1); [apply issues_send|]. intros response.
      apply (issues_bind _ _ 1 0).
      * destruct (status_code response =? 405)%Z.
        -- apply (issues_bind _ _ 0 1); [apply issues_log|].
           intros _. apply issues_send.
        -- apply (issues_weaken _ 0 1); [lia|apply issues_ret].
      * intros response'.
        apply (issues_bind _ _ 0 0); [apply issues_log|]. intros _.
        destruct (negb _).
        -- apply (issues_bind _ _ 0 0); [apply issues_log|].
           intros _. apply issues_ret.
        -- apply issues_ret.
    + intros e. apply (issues_bind _ _ 0 0); [apply issues_log|].
      intros _. apply issues_ret.
  - apply (issues_weaken _ 0 2); [lia|].
    apply (issues_bind _ _ 0 0); [apply issues_log|]. intros _. apply issues_ret.
Qed.

Lemma issues_check_and_record url soup session acc src :
  issues_at_most (check_and_record url soup session acc src) 2.
Proof.
  unfold check_and_record.
  apply (issues_bind _ _ 0 2); [apply issues_lift|]. intros image_url.
  apply (issues_bind _ _ 0 2); [apply issues_log|]. intros _.
  apply (issues_bind _ _ 0 2); [apply issues_lift|]. intros stored.
  apply (issues_bind _ _ 2 0); [apply issues_check_image|]. intros reason.
  destruct reason as [reason|]; [|apply issues_ret].
  destruct (negb _); [|apply issues_ret].
  apply (issues_bind _ _ 0 0); [apply issues_log|]. intros _.
  apply (issues_bind _ _ 0 0); [apply issues_lift|]. intros article_id.
  apply issues_ret.
Qed.

Lemma issues_raise_for_status r : issues_at_most (raise_for_status r) 0.
Proof.
  intros t. exists []. rewrite app_nil_r. split; [|simpl; lia].
  unfold raise_for_status, raise, ret.
  destruct (_ && _)%bool; [reflexivity|]. now destruct (_ && _)%bool.
Qed.

Lemma raise_for_status_trace r t : snd (raise_for_status r t) = t.
Proof.
  unfold raise_for_status, raise, ret.
  destruct (_ && _)%bool; [reflexivity|]. now destruct (_ && _)%bool.
Qed.

Lemma issues_fetch_page url session : issues_at_most (fetch_page url session) 1.
Proof.
  unfold fetch_page. apply (issues_try_except _ _ _ 1 0).
  - apply (issues_bind _ _ 1 0); [apply issues_send|]. intros response.
    apply (issues_bind _ _ 0 0); [apply issues_raise_for_status|].
    intros _. apply issues_ret.
  - intros e. apply (issues_bind _ _ 0 0); [apply issues_log|].
    intros _. apply issues_ret.
Qed.

(** The images the loop over the selectors collects from a parsed page. *)
Lemma issues_scrape_images url soup session :
  issues_at_most
    (images <- for_fold container_selectors [] (collect_images url soup) ;;
     for_fold images [] (check_and_record url soup session))
    (2 * List.length
           (match select_one_img_src soup ".article-detail-card-content" with
            | Some found => found
            | None => []
            end)).
Proof.
  unfold container_selectors. cbn [for_fold]. unfold collect_images.
  destruct (select_one_img_src soup ".article-detail-card-content")
    as [found|]; intros t.
  - destruct (issues_for_fold (check_and_record url soup session) 2 found
                (fun s x _ => issues_check_and_record url soup session s x)
                [] (t ++ [Log DEBUG
                            ("Found " ++ str_of_nat (List.length found)
                             ++ " images in container "
                             ++ ".article-detail-card-content" ++ ".")])%list)
      as (d & Hd & Hl).
    eexists (_ :: d).
    unfold bind at 1. unfold bind at 1. unfold bind at 1.
    unfold logging_debug at 1, emit at 1, ret at 1, ret at 1.
    cbn [app]. rewrite Hd, <- app_assoc. split; [reflexivity|exact Hl].
  - eexists [_].
    unfold bind at 1. unfold bind at 1. unfold bind at 1.
    unfold logging_debug at 1, emit at 1, ret at 1, ret at 1.
    cbn [for_fold]. unfold ret. cbn [snd]. split; [reflexivity|]. simpl. lia.
Qed.


(** X13.  Whatever follows, the scrape of a page first sleeps for
    [REQUEST_DELAY] and then sends the GET for the page, with timeout 10 and
    redirects: no request goes out before the delay. *)
Theorem scrape_sleeps_then_fetches (url : string) (session : Session)
    (t : trace) :
  exists d,
    snd (scrape_and_check_images url session t)
    = (t ++ Sleep REQUEST_DELAY :: Http (GET url 10 false true) :: d)%list.
Proof.
  unfold scrape_and_check_images, time_sleep, emit.
  unfold bind at 1. unfold bind at 1.
  unfold fetch_page, try_except, session_get, send. unfold bind at 1.
  set (t1 := ((t ++ [Sleep REQUEST_DELAY])
              ++ [Http (GET url 10 false true)])%list).
  assert (Ht1 : forall d,
             (t1 ++ d)%list
             = (t ++ Sleep REQUEST_DELAY
                  :: Http (GET url 10 false true) :: d)%list).
  { intros d. unfold t1. now rewrite <- !app_assoc. }
  destruct (session _ (GET url 10 false true)) as [response|e].
  - unfold bind at 1.
    pose proof (raise_for_status_trace response t1) as Hrs.
    destruct (raise_for_status response t1) as [[[]|e] u];
      cbn [snd] in Hrs; subst u.
    + unfold ret at 1. cbv beta iota.
      destruct (issues_scrape_images url
                  (BeautifulSoup (content response) "html.parser") session
                  t1) as (d & -> & _).
      exists d. apply Ht1.
    + destruct (is_RequestException e).
      * unfold bind, logging_error, emit, ret. cbn [snd].
        eexists. apply Ht1.
      * exists []. cbn [snd]. now rewrite <- Ht1, app_nil_r.
  - destruct (is_RequestException e).
    + unfold bind, logging_error, emit, ret. cbn [snd].
      eexists. apply Ht1.
    + exists []. cbn [snd]. now rewrite <- Ht1, app_nil_r.
Qed.

(** ** Writing the report, further *)

(** The lines of the report: the header, then one line for each record. *)
Lemma write_rows_ok (file : string) (data : list ImageRecord) (u : trace) :
  (forall v op, os v op = Ok tt) ->
  for_fold data tt
    (fun _ row => fs_call (Write file (csv_row (dict_to_list row)))) u
  = (Ok tt,
     (u ++ map (fun row => Fs (Write file (csv_row (dict_to_list row)))) data)%list).
Proof.
  intros Hos. revert u. induction data as [|row data IH]; intros u.
  - cbn [for_fold map]. unfold ret. now rewrite app_nil_r.
  - cbn [for_fold map]. unfold bind, fs_call. rewrite Hos, IH.
    now rewrite <- app_assoc.
Qed.

Lemma save_to_csv_report_eval (data : list ImageRecord)
    (filename_prefix : string) (t : trace) :
  (forall v op, os v op = Ok tt) ->
  let output_path :=
    Pathlib.truediv (Pathlib.Path OUTPUT_DIRECTORY)
      (filename_prefix ++ "_" ++ strftime_now t ++ ".csv") in
  let directory := Pathlib.str (Pathlib.parent output_path) in
  let file := Pathlib.str output_path in
  save_to_csv data filename_prefix t
  = (Ok tt,
     (t ++ [Fs (Mkdir directory true true); Fs (Open file "w");
            Fs (Write file (csv_row fieldnames))]
        ++ map (fun row => Fs (Write file (csv_row (dict_to_list row)))) data
        ++ [Fs (Close file); Log INFO ("Data saved to " ++ file ++ ".")])%list).
Proof.
  intros Hos output_path directory file. unfold save_to_csv.
  unfold bind at 1. cbv beta iota zeta.
  fold output_path. fold directory. fold file.
  unfold bind at 1. unfold fs_call at 1. rewrite Hos.
  unfold try_except, with_open.
  unfold bind at 1. unfold bind at 1. unfold fs_call at 1. rewrite Hos.
  unfold bind at 1. unfold fs_call at 1. rewrite Hos.
  rewrite (write_rows_ok file data _ Hos).
  unfold bind at 1. unfold fs_call at 1. rewrite Hos.
  unfold ret, logging_info, emit.
  f_equal. rewrite <- !app_assoc. reflexivity.
Qed.

(** X14.  On a file system where every call succeeds, [save_to_csv]
    creates the parent directory of the output path, the path being the
    output directory joined, as [pathlib] joins, with the file name made of
    the prefix and the time of the call; it opens that file, writes the
    header line and then one line for each record, in the order of the
    list, closes the file and logs; it returns normally. *)
Theorem save_to_csv_report (data : list ImageRecord) (filename_prefix : string)
    (t : trace) :
  (forall v op, os v op = Ok tt) ->
  let output_path :=
    Pathlib.truediv (Pathlib.Path OUTPUT_DIRECTORY)
      (filename_prefix ++ "_" ++ strftime_now t ++ ".csv") in
  let directory := Pathlib.str (Pathlib.parent output_path) in
  let file := Pathlib.str output_path in
  save_to_csv data filename_prefix t
  = (Ok tt,
     (t ++ [Fs (Mkdir directory true true); Fs (Open file "w");
            Fs (Write file (csv_row fieldnames))]
        ++ map (fun row => Fs (Write file (csv_row (dict_to_list row)))) data
        ++ [Fs (Close file); Log INFO ("Data saved to " ++ file ++ ".")])%list).
Proof.
  intros Hos output_path directory file. unfold save_to_csv.
  unfold bind at 1. cbv beta iota zeta.
  fold output_path. fold directory. fold file.
  unfold bind at 1. unfold fs_call at 1. rewrite Hos.
  unfold try_except, with_open.
  unfold bind at 1. unfold bind at 1. unfold fs_call at 1. rewrite Hos.
  unfold bind at 1. unfold fs_call at 1. rewrite Hos.
  rewrite (write_rows_ok file data _ Hos).
  unfold bind at 1. unfold fs_call at 1. rewrite Hos.
  unfold ret, logging_info, emit.
  f_equal. rewrite <- !app_assoc. reflexivity.
Qed.

Lemma write_rows_trace (file : string) (data : list ImageRecord) (u : trace) :
  exists written,
    snd (for_fold data tt
           (fun _ row => fs_call (Write file (csv_row (dict_to_list row)))) u)
    = (u ++ written)%list
    /\ Forall (fun ev => exists line, ev = Fs (Write file line)) written.
Proof.
  revert u. induction data as [|row data IH]; intros u.
  - exists []. cbn [for_fold]. unfold ret. now rewrite app_nil_r.
  - cbn [for_fold]. unfold bind. unfold fs_call at 1.
    destruct (os u _) as [[]|e]; cbv beta iota.
    + destruct (IH (u ++ [Fs (Write file (csv_row (dict_to_list row)))])%list)
        as (written & Hd & Hw).
      rewrite Hd.
      eexists (_ :: written). rewrite <- app_assoc. split; [reflexivity|].
      constructor; [now eexists|exact Hw].
    + eexists [_]. split; [reflexivity|]. constructor; [now eexists|constructor].
Qed.

(** X15.  Whatever happens to the writes, a file that [save_to_csv] opened
    is closed: after the directory and the open, the file-system calls are
    writes to that file and then its close, which is the last call before
    the closing log line; and [save_to_csv] returns normally. *)
Theorem save_to_csv_closes_file (data : list ImageRecord)
    (filename_prefix : string) (t : trace) :
  let output_path :=
    Pathlib.truediv (Pathlib.Path OUTPUT_DIRECTORY)
      (filename_prefix ++ "_" ++ strftime_now t ++ ".csv") in
  let directory := Pathlib.str (Pathlib.parent output_path) in
  let file := Pathlib.str output_path in
  os t (Mkdir directory true true) = Ok tt ->
  os (t ++ [Fs (Mkdir directory true true)])%list (Open file "w")
  = Ok tt ->
  exists written l msg,
    save_to_csv data filename_prefix t
    = (Ok tt,
       (t ++ [Fs (Mkdir directory true true); Fs (Open file "w")]
          ++ written ++ [Fs (Close file); Log l msg])%list)
    /\ Forall (fun ev => exists line, ev = Fs (Write file line)) written.
Proof.
  intros output_path directory file Hmkdir Hopen. unfold save_to_csv.
  unfold bind at 1. cbv beta iota zeta.
  fold output_path. fold directory. fold file.
  unfold bind at 1. unfold fs_call at 1. rewrite Hmkdir.
  unfold try_except, with_open.
  unfold bind at 1. unfold bind at 1. unfold fs_call at 1. rewrite Hopen.
  set (u := ((t ++ [Fs (Mkdir directory true true)])
             ++ [Fs (Open file "w")])%list).
  assert (Hu : forall d,
             (u ++ d)%list
             = (t ++ [Fs (Mkdir directory true true);
                      Fs (Open file "w")] ++ d)%list).
  { intros d. unfold u. now rewrite <- !app_assoc. }
  assert (Hbody : exists written,
             snd ((fs_call (Write file (csv_row fieldnames)) ;;
                   for_fold data tt
                     (fun _ row =>
                        fs_call (Write file (csv_row (dict_to_list row))))) u)
             = (u ++ written)%list
             /\ Forall (fun ev => exists line, ev = Fs (Write file line))
                  written).
  { unfold bind. unfold fs_call at 1.
    destruct (os u _) as [[]|e]; cbv beta iota.
    - destruct (write_rows_trace file data
                  (u ++ [Fs (Write file (csv_row fieldnames))])%list)
        as (written & Hd & Hw).
      rewrite Hd.
      eexists (_ :: written). rewrite <- app_assoc. split; [reflexivity|].
      constructor; [now eexists|exact Hw].
    - eexists [_]. split; [reflexivity|].
      constructor; [now eexists|constructor]. }
  destruct Hbody as (written & Hsnd & Hw).
  exists written.
  match goal with
  | |- context [match ?b u with _ => _ end] => destruct (b u) as [[[]|e] u1]
  end; cbn [snd] in Hsnd; subst u1.
  - unfold bind at 1. unfold fs_call at 1.
    destruct (os (u ++ written)%list (Close file)) as [[]|e].
    + unfold ret, logging_info, emit. eexists _, _. split; [|exact Hw].
      now rewrite <- !app_assoc, Hu.
    + unfold logging_error, emit. eexists _, _. split; [|exact Hw].
      now rewrite <- !app_assoc, Hu.
  - unfold bind at 1. unfold fs_call at 1.
    destruct (os (u ++ written)%list (Close file)) as [[]|e'].
    + unfold raise, logging_error, emit. eexists _, _. split; [|exact Hw].
      now rewrite <- !app_assoc, Hu.
    + unfold logging_error, emit. eexists _, _. split; [|exact Hw].
      now rewrite <- !app_assoc, Hu.
Qed.

(** X16.  When the file cannot be opened, nothing is written and nothing
    closed: the error is logged and [save_to_csv] returns normally. *)
Theorem save_to_csv_open_fails (data : list ImageRecord)
    (filename_prefix : string) (t : trace) (e : exn) :
  let output_path :=
    Pathlib.truediv (Pathlib.Path OUTPUT_DIRECTORY)
      (filename_prefix ++ "_" ++ strftime_now t ++ ".csv") in
  let directory := Pathlib.str (Pathlib.parent output_path) in
  let file := Pathlib.str output_path in
  os t (Mkdir directory true true) = Ok tt ->
  os (t ++ [Fs (Mkdir directory true true)])%list (Open file "w")
  = Raise e ->
  save_to_csv data filename_prefix t
  = (Ok tt,
     (t ++ [Fs (Mkdir directory true true); Fs (Open file "w");
            Log ERROR ("Failed to save CSV file. Error: " ++ str_exn e)])%list).
Proof.
  intros output_path directory file Hmkdir Hopen. unfold save_to_csv.
  unfold bind at 1. cbv beta iota zeta.
  fold output_path. fold directory. fold file.
  unfold bind at 1. unfold fs_call at 1. rewrite Hmkdir.
  unfold try_except, with_open.
  unfold bind at 1. unfold bind at 1. unfold fs_call at 1. rewrite Hopen.
  unfold logging_error, emit. now rewrite <- !app_assoc.
Qed.

(** ** Collecting a batch *)

Lemma collect_batch_eval futures :
  forall acc t,
    collect_batch futures acc t
    = (Ok (acc ++ batch_records futures)%list,
       (t ++ batch_errors futures)%list).
Proof.
  unfold collect_batch.
  induction futures as [|[page outcome] futures IH]; intros acc t.
  - cbn [for_fold batch_records batch_errors flat_map]. unfold ret.
    now rewrite !app_nil_r.
  - cbn [for_fold batch_records batch_errors flat_map fst snd].
    fold (batch_records futures). fold (batch_errors futures).
    destruct outcome as [[|r result]|exc].
    + unfold bind at 1. unfold ret at 1. rewrite IH. reflexivity.
    + unfold bind at 1. unfold ret at 1. rewrite IH.
      now rewrite <- app_assoc.
    + unfold bind at 1. unfold bind at 1.
      unfold logging_error at 1, emit at 1, ret at 1. rewrite IH.
      now rewrite <- app_assoc.
Qed.

(** X17.  Collecting the futures of a batch never raises: it returns the
    records held before, followed by the records of the pages whose scrape
    returned, in completion order; a page whose scrape raised adds no
    record, and one error line to the log. *)
Theorem collect_batch_keeps_going
    (futures : list (string * result (list ImageRecord)))
    (broken_images : list ImageRecord) (t : trace) :
  collect_batch futures broken_images t
  = (Ok (broken_images ++ batch_records futures)%list,
     (t ++ batch_errors futures)%list)
  /\ List.length (batch_errors futures)
     = List.length (filter (fun f => match snd f with
                                     | Ok _ => false
                                     | Raise _ => true
                                     end) futures)
  /\ net_calls (t ++ batch_errors futures)%list = net_calls t.
Proof.
  split; [apply collect_batch_eval|].
  assert (Hn : net_calls (batch_errors futures) = []
               /\ List.length (batch_errors futures)
                  = List.length (filter (fun f => match snd f with
                                                  | Ok _ => false
                                                  | Raise _ => true
                                                  end) futures)).
  { induction futures as [|[page outcome] futures [IH1 IH2]].
    - now split.
    - cbn [batch_errors flat_map filter snd fst].
      fold (batch_errors futures).
      destruct outcome as [result|exc]; cbn [app]; [now split|].
      cbn [List.length net_calls]. split; [exact IH1|now rewrite IH2]. }
  destruct Hn as [Hn Hl]. split; [exact Hl|].
  now rewrite net_calls_app, Hn, app_nil_r.
Qed.

(** X18.  The order in which the pages of a batch complete changes the
    order of the records only: two completion orders of the same futures
    give the same records up to a permutation. *)
Theorem collect_batch_order_irrelevant
    (futures futures' : list (string * result (list ImageRecord)))
    (broken_images : list ImageRecord) (t : trace) :
  Permutation futures futures' ->
  exists recs recs',
    fst (collect_batch futures broken_images t) = Ok recs
    /\ fst (collect_batch futures' broken_images t) = Ok recs'
    /\ Permutation recs recs'.
Proof.
  intros Hp. rewrite !collect_batch_eval. cbn [fst].
  eexists _, _. split; [reflexivity|]. split; [reflexivity|].
  apply Permutation_app_head. unfold batch_records.
  now apply Permutation_flat_map.
Qed.

(** ** The article ID *)

Lemma list_index_first (x : string) (before rest : list string) :
  ~ In x before ->
  list_index x (before ++ x :: rest) = Some (List.length before).
Proof.
  induction before as [|y before IH]; simpl; intros H.
  - now rewrite String.eqb_refl.
  - destruct (y =? x)%string eqn:E.
    + apply String.eqb_eq in E. exfalso. apply H. now left.
    + rewrite IH; [reflexivity|]. intros Hin. apply H. now right.
Qed.

Lemma list_index_absent (x : string) (xs : list string) :
  ~ In x xs -> list_index x xs = None.
Proof.
  induction xs as [|y xs IH]; simpl; intros H; [reflexivity|].
  destruct (y =? x)%string eqn:E.
  - apply String.eqb_eq in E. exfalso. apply H. now left.
  - rewrite IH; [reflexivity|]. intros Hin. apply H. now right.
Qed.

Lemma split_no_sep (sep : ascii) (s : string) :
  Forall (fun part => has_char sep part = false) (split sep s).
Proof.
  induction s as [|a s IH]; simpl.
  - constructor; [reflexivity|constructor].
  - destruct (Ascii.eqb a sep) eqn:E.
    + constructor; [reflexivity|exact IH].
    + destruct (split sep s) as [|p ps].
      * constructor; [simpl; now rewrite E|constructor].
      * inversion IH; subst. constructor; [simpl; now rewrite E|assumption].
Qed.

(** The segments of the path, as [get_article_id] computes them. *)
Lemma get_article_id_eval (url : string) (parsed : Urllib.ParseResult) :
  urlparse url = Ok parsed ->
  get_article_id url
  = Ok (let path_parts :=
          filter (fun segment => negb (segment =? ""))
                 (split "/" (Urllib.path parsed)) in
        match list_index "article" path_parts with
        | Some idx =>
            if (idx + 1 <? List.length path_parts)%nat
            then nth (idx + 1) path_parts ""
            else ""
        | None => ""
        end).
Proof. intros H. unfold get_article_id. now rewrite H. Qed.

(** X19.  For a URL [urlparse] accepts, with the non-empty segments of its
    path: the article ID is the segment that follows the first segment
    ["article"]; it is empty when no segment is ["article"] and when the
    first such segment is the last one.  The ID never holds a slash. *)
Theorem get_article_id_segment (url : string) (parsed : Urllib.ParseResult) :
  urlparse url = Ok parsed ->
  let path_parts :=
    filter (fun segment => negb (segment =? ""))
           (split "/" (Urllib.path parsed)) in
  (forall before id after,
      path_parts = (before ++ "article" :: id :: after)%list ->
      ~ In "article" before ->
      get_article_id url = Ok id /\ id <> "")
  /\ (forall before,
        path_parts = (before ++ ["article"])%list ->
        ~ In "article" before ->
        get_article_id url = Ok "")
  /\ (~ In "article" path_parts -> get_article_id url = Ok "")
  /\ exists id, get_article_id url = Ok id /\ has_char "/" id = false.
Proof.
  intros Hp path_parts. rewrite (get_article_id_eval _ _ Hp).
  fold path_parts. cbv zeta.
  assert (Hparts : Forall (fun part => has_char "/" part = false
                                       /\ part <> "") path_parts).
  { unfold path_parts. apply Forall_forall. intros part Hin.
    apply filter_In in Hin as [Hin Hne].
    pose proof (split_no_sep "/" (Urllib.path parsed)) as Hs.
    rewrite Forall_forall in Hs. split; [now apply Hs|].
    intros ->. discriminate. }
  split; [|split; [|split]].
  - intros before id after Heq Hb.
    rewrite Heq, (list_index_first _ _ _ Hb).
    rewrite length_app. cbn [List.length].
    replace (List.length before + 1 <? _)%nat with true
      by (symmetry; apply Nat.ltb_lt; lia).
    rewrite app_nth2 by lia.
    replace (List.length before + 1 - List.length before) with 1 by lia.
    split; [reflexivity|].
    rewrite Heq in Hparts. rewrite Forall_forall in Hparts.
    apply Hparts. apply in_or_app. right. right. now left.
  - intros before Heq Hb.
    rewrite Heq, (list_index_first _ _ _ Hb).
    rewrite length_app. cbn [List.length].
    replace (List.length before + 1 <? _)%nat with false
      by (symmetry; apply Nat.ltb_ge; lia).
    reflexivity.
  - intros Hn. now rewrite (list_index_absent _ _ Hn).
  - destruct (list_index "article" path_parts) as [idx|];
      [|now exists ""].
    destruct (idx + 1 <? List.length path_parts)%nat eqn:E;
      [|now exists ""].
    apply Nat.ltb_lt in E. eexists. split; [reflexivity|].
    rewrite Forall_forall in Hparts.
    apply Hparts. now apply nth_In.
Qed.

(** ** The allow-list the prompt yields *)

Lemma lstrip_by_idempotent (p : ascii -> bool) (s : string) :
  lstrip_by p (lstrip_by p s) = lstrip_by p s.
Proof.
  induction s as [|a s IH]; simpl; [reflexivity|].
  destruct (p a) eqn:E; [exact IH|]. simpl. now rewrite E.
Qed.

Lemma lstrip_by_head (p : ascii -> bool) (s : string) :
  lstrip_by p s = ""
  \/ exists a r, lstrip_by p s = String a r /\ p a = false.
Proof.
  induction s as [|a s IH]; simpl; [now left|].
  destruct (p a) eqn:E; [exact IH|]. right. now exists a, s.
Qed.

Lemma lstrip_by_snoc (p : ascii -> bool) (s : string) (a : ascii) :
  p a = false ->
  lstrip_by p (s ++ String a "") = lstrip_by p s ++ String a "".
Proof.
  intros Ha. induction s as [|b s IH]; simpl; [now rewrite Ha|].
  destruct (p b); [exact IH|reflexivity].
Qed.

Lemma rev_snoc (s : string) (a : ascii) :
  rev (s ++ String a "") = String a (rev s).
Proof. induction s as [|b s IH]; simpl; [reflexivity|now rewrite IH]. Qed.

Lemma rev_involutive (s : string) : rev (rev s) = s.
Proof.
  induction s as [|a s IH]; simpl; [reflexivity|]. now rewrite rev_snoc, IH.
Qed.

Lemma rstrip_by_idempotent (p : ascii -> bool) (s : string) :
  rstrip_by p (rstrip_by p s) = rstrip_by p s.
Proof.
  unfold rstrip_by. now rewrite rev_involutive, lstrip_by_idempotent.
Qed.

Lemma rstrip_by_keeps_head (p : ascii -> bool) (a : ascii) (r : string) :
  p a = false -> exists r', rstrip_by p (String a r) = String a r'.
Proof.
  intros Ha. unfold rstrip_by. simpl.
  rewrite (lstrip_by_snoc _ _ _ Ha), rev_snoc. now eexists.
Qed.

Lemma strip_idempotent (s : string) : strip (strip s) = strip s.
Proof.
  unfold strip.
  destruct (lstrip_by_head isspace s) as [->|(a & r & -> & Ha)].
  - reflexivity.
  - destruct (rstrip_by_keeps_head isspace a r Ha) as [r' Hr].
    rewrite Hr. simpl. rewrite Ha, <- Hr. apply rstrip_by_idempotent.
Qed.

Lemma has_char_app (c : ascii) (a b : string) :
  has_char c (a ++ b) = has_char c a || has_char c b.
Proof.
  induction a as [|x a IH]; simpl; [reflexivity|].
  now rewrite IH, orb_assoc.
Qed.

Lemma has_char_rev (c : ascii) (s : string) : has_char c (rev s) = has_char c s.
Proof.
  induction s as [|a s IH]; simpl; [reflexivity|].
  rewrite has_char_app, IH. simpl. rewrite orb_false_r. apply orb_comm.
Qed.

Lemma has_char_lstrip_by (p : ascii -> bool) (c : ascii) (s : string) :
  has_char c s = false -> has_char c (lstrip_by p s) = false.
Proof.
  induction s as [|a s IH]; simpl; intros H; [reflexivity|].
  apply orb_false_iff in H as [Ha Hs].
  destruct (p a); [now apply IH|]. simpl. now rewrite Ha, Hs.
Qed.

Lemma has_char_strip (c : ascii) (s : string) :
  has_char c s = false -> has_char c (strip s) = false.
Proof.
  intros H. unfold strip, rstrip_by.
  rewrite has_char_rev. apply has_char_lstrip_by.
  rewrite has_char_rev. now apply has_char_lstrip_by.
Qed.

Lemma split_length (sep : ascii) (s : string) :
  List.length (split sep s) = S (count_char sep s).
Proof.
  induction s as [|a s IH]; simpl; [reflexivity|].
  destruct (Ascii.eqb a sep); simpl; [now rewrite IH|].
  destruct (split sep s) as [|p ps]; simpl in *; [discriminate|exact IH].
Qed.

(** X20.  The allow-list is never empty.  A line that is blank once
    stripped gives the two default domains.  Any other line gives one entry
    for each comma-separated part of the stripped line, so one more than
    the line has commas; every entry is stripped of surrounding white space
    and holds no comma. *)
Theorem get_allowed_domains_entries (line : string) :
  get_allowed_domains line <> []
  /\ (strip line = "" -> get_allowed_domains line = default_domains)
  /\ (strip line <> "" ->
      List.length (get_allowed_domains line)
      = S (count_char "," (strip line))
      /\ Forall (fun domain => strip domain = domain
                               /\ has_char "," domain = false)
                (get_allowed_domains line)).
Proof.
  unfold get_allowed_domains.
  destruct (strip line =? "") eqn:E; cbn [negb].
  - apply String.eqb_eq in E.
    split; [discriminate|]. split; [reflexivity|]. intros H. now elim H.
  - apply String.eqb_neq in E.
    assert (Hlen : List.length (map strip (split "," (strip line)))
                   = S (count_char "," (strip line))).
    { now rewrite length_map, split_length. }
    split; [|split; [intros H; now elim E|]].
    + intros H. rewrite H in Hlen. discriminate.
    + intros _. split; [exact Hlen|].
      apply Forall_forall. intros d Hd.
      apply in_map_iff in Hd as (part & <- & Hpart).
      split; [apply strip_idempotent|].
      apply has_char_strip.
      pose proof (split_no_sep "," (strip line)) as Hs.
      rewrite Forall_forall in Hs. now apply Hs.
Qed.

(** ** The lines of the report can be read back *)

Lemma read_quoted_field (f rest : string) :
  match rest with
  | "" => True
  | String c _ => Ascii.eqb c dquote = false
  end ->
  read_quoted (double_quotes f ++ String dquote rest) = Some (f, rest).
Proof.
  intros Hrest. induction f as [|a f IH].
  - cbn [double_quotes append read_quoted]. rewrite Ascii.eqb_refl.
    destruct rest as [|c r]; [reflexivity|now rewrite Hrest].
  - cbn [double_quotes]. destruct (Ascii.eqb a dquote) eqn:E.
    + apply Ascii.eqb_eq in E. subst a.
      cbn [append read_quoted]. rewrite !Ascii.eqb_refl.
      fold (double_quotes f ++ String dquote rest). now rewrite IH.
    + cbn [append read_quoted]. rewrite E.
      fold (double_quotes f ++ String dquote rest). now rewrite IH.
Qed.

Lemma concat_cons (sep x : string) (xs : list string) :
  String.concat sep (x :: xs)
  = x ++ match xs with
         | [] => ""
         | _ :: _ => sep ++ String.concat sep xs
         end.
Proof.
  destruct xs; simpl; [|reflexivity].
  induction x as [|a x IH]; simpl; [reflexivity|now rewrite <- IH].
Qed.

Lemma row_cons (f : string) (fs : list string) :
  String.concat "," (map csv_field (f :: fs)) ++ lineterminator
  = String dquote (double_quotes f ++ String dquote (row_tail fs)).
Proof.
  cbn [map]. rewrite concat_cons. unfold csv_field at 1, row_tail.
  cbn [append]. f_equal. rewrite !string_app_assoc. f_equal.
  cbn [append]. f_equal. now destruct fs.
Qed.

Lemma row_tail_cons (f : string) (fs : list string) :
  row_tail (f :: fs)
  = String "," (String.concat "," (map csv_field (f :: fs)) ++ lineterminator).
Proof. reflexivity. Qed.

Lemma row_tail_head (fs : list string) :
  match row_tail fs with
  | "" => True
  | String c _ => Ascii.eqb c dquote = false
  end.
Proof. destruct fs; reflexivity. Qed.

Lemma row_fields_injective (fs1 fs2 : list string) :
  String.concat "," (map csv_field fs1) ++ lineterminator
  = String.concat "," (map csv_field fs2) ++ lineterminator ->
  fs1 = fs2.
Proof.
  revert fs2. induction fs1 as [|f1 fs1 IH]; intros [|f2 fs2] H.
  - reflexivity.
  - rewrite row_cons in H. discriminate.
  - rewrite row_cons in H. discriminate.
  - rewrite !row_cons in H. injection H as H.
    pose proof (read_quoted_field f1 _ (row_tail_head fs1)) as H1.
    pose proof (read_quoted_field f2 _ (row_tail_head fs2)) as H2.
    rewrite H, H2 in H1. injection H1 as <- Hrest.
    f_equal. apply IH.
    destruct fs1 as [|g1 fs1]; destruct fs2 as [|g2 fs2].
    + reflexivity.
    + unfold row_tail in Hrest. discriminate.
    + unfold row_tail in Hrest. discriminate.
    + rewrite !row_tail_cons in Hrest. injection Hrest as Hrest.
      now symmetry.
Qed.

(** X21.  A line of the report determines its record: two records are
    written as the same line only when all six fields agree, whatever
    commas, quotes or line breaks the fields hold. *)
Theorem csv_row_determines_record (r1 r2 : ImageRecord) :
  csv_row (dict_to_list r1) = csv_row (dict_to_list r2) -> r1 = r2.
Proof.
  intros H. apply row_fields_injective in H.
  destruct r1, r2. unfold dict_to_list in H. cbn in H.
  now injection H as -> -> -> -> -> ->.
Qed.

(** ** Single page, sitemap run and entry point *)

Lemma scrape_failed_fetch_eval (url : string) (session : Session) (t : trace) :
  fetch_fails session (t ++ [Sleep 1])%list url ->
  exists msg,
    scrape_and_check_images url session t
    = (Ok [], (t ++ [Sleep 1; Http (GET url 10 false true);
                     Log ERROR msg])%list).
Proof.
  intros H. destruct (fetch_page_fails _ _ _ H) as [msg Hf]. exists msg.
  unfold scrape_and_check_images, time_sleep, emit.
  unfold bind at 1. unfold bind at 1. change REQUEST_DELAY with 1%Z.
  rewrite Hf. unfold ret. now rewrite <- app_assoc.
Qed.

(** X22.  A single-page run on a page that cannot be fetched still writes
    a report: with a file system where every call succeeds, the file is
    created and holds the header line alone.  The file is the output
    directory joined with the single-page prefix, the time when the report
    is written and the extension; the directory created is its parent. *)
Theorem check_single_page_failed_fetch (line : string) (session : Session)
    (t : trace) :
  strip line <> "" ->
  (forall v op, os v op = Ok tt) ->
  fetch_fails session
    (t ++ [Log INFO ("Checking single page: " ++ strip line); Sleep 1])%list
    (strip line) ->
  exists msg,
    let timestamp :=
      strftime_now
        (t ++ [Log INFO ("Checking single page: " ++ strip line);
               Sleep 1; Http (GET (strip line) 10 false true);
               Log ERROR msg;
               Log INFO "No broken images found."])%list in
    let output_path :=
      Pathlib.truediv (Pathlib.Path OUTPUT_DIRECTORY)
        ("broken_images_single_page" ++ "_" ++ timestamp ++ ".csv") in
    let directory := Pathlib.str (Pathlib.parent output_path) in
    let file := Pathlib.str output_path in
    check_single_page line session t
    = (Ok tt,
       (t ++ [Log INFO ("Checking single page: " ++ strip line);
              Sleep 1; Http (GET (strip line) 10 false true);
              Log ERROR msg;
              Log INFO "No broken images found.";
              Fs (Mkdir directory true true);
              Fs (Open file "w");
              Fs (Write file (csv_row fieldnames));
              Fs (Close file);
              Log INFO ("Data saved to " ++ file ++ ".")])%list).
Proof.
  intros Hline Hos Hfetch. unfold check_single_page.
  apply String.eqb_neq in Hline. rewrite Hline.
  unfold bind at 1. unfold logging_info at 1, emit at 1.
  change (t ++ [Log INFO ("Checking single page: " ++ strip line); Sleep 1])%list
    with (t ++ [Log INFO ("Checking single page: " ++ strip line)]
            ++ [Sleep 1])%list in Hfetch.
  rewrite app_assoc in Hfetch.
  destruct (scrape_failed_fetch_eval _ _ _ Hfetch) as [msg Hs].
  unfold bind at 1. rewrite Hs.
  unfold bind at 1. unfold logging_info at 1, emit at 1.
  pose proof (save_to_csv_report_eval [] "broken_images_single_page") as Hr.
  rewrite (Hr _ Hos). exists msg. cbn [map app].
  cbv zeta. rewrite <- !app_assoc. reflexivity.
Qed.

Lemma fetch_sitemap_fails (what url : string) (session : Session) (t : trace) :
  fetch_fails session t url ->
  exists msg,
    fetch_sitemap what url session t
    = (Ok None, (t ++ [Http (GET url 10 false true); Log ERROR msg])%list).
Proof.
  unfold fetch_sitemap, try_except, session_get, send.
  intros [[msg H]|(r & H & Hr)]; unfold bind at 1; rewrite H.
  - cbn [is_RequestException]. unfold bind, logging_error, emit, ret.
    eexists. now rewrite <- app_assoc.
  - unfold bind at 1.
    destruct (raise_for_status_rejects r
                (t ++ [Http (GET url 10 false true)])%list Hr) as [msg ->].
    cbn [is_RequestException]. unfold bind, logging_error, emit, ret.
    eexists. now rewrite <- app_assoc.
Qed.

(** X23.  An entry that cannot be used starts nothing: when the mode is
    neither [single] nor [all] once stripped and lowercased, or the URL
    entered is blank, [main] logs one error and returns, without a request
    and without a file-system call. *)
Theorem main_rejects_input (mode_line line : string) (session : Session)
    (t : trace) :
  (lower (strip mode_line) <> "single" /\ lower (strip mode_line) <> "all")
  \/ strip line = "" ->
  exists msg, main mode_line line session t = (Ok tt, (t ++ [Log ERROR msg])%list).
Proof.
  intros H. unfold main.
  destruct (lower (strip mode_line) =? "single") eqn:E1;
    [|destruct (lower (strip mode_line) =? "all") eqn:E2].
  - destruct H as [[H _]|H]; [apply String.eqb_eq in E1; now elim H|].
    unfold check_single_page. rewrite H. now eexists.
  - destruct H as [[_ H]|H]; [apply String.eqb_eq in E2; now elim H|].
    unfold check_all_pages. rewrite H. now eexists.
  - now eexists.
Qed.

(** X24.  When the main sitemap cannot be fetched, the sitemap run ends
    after that one request and its error line: no page is scraped and no
    report is written. *)
Theorem check_all_pages_root_failure (line : string) (session : Session)
    (t : trace) :
  strip line <> "" ->
  fetch_fails session t (strip line) ->
  exists msg,
    check_all_pages line session t
    = (Ok tt,
       (t ++ [Http (GET (strip line) 10 false true); Log ERROR msg])%list).
Proof.
  intros Hline Hfetch. unfold check_all_pages.
  apply String.eqb_neq in Hline. rewrite Hline.
  destruct (fetch_sitemap_fails "main sitemap" _ _ _ Hfetch) as [msg Hf].
  exists msg. unfold bind at 1. now rewrite Hf.
Qed.

Lemma check_sitemaps_all_fail (session : Session) (children : list string) :
  (forall v child, In child children -> fetch_fails session v child) ->
  forall acc u,
    exists u',
      for_fold children acc (check_sitemap session) u = (Ok acc, u')
      /\ net_calls u'
         = (net_calls u ++ map (fun c => GET c 10 false true) children)%list.
Proof.
  induction children as [|child children IH]; intros Hall acc u.
  - exists u. cbn [for_fold map]. unfold ret. now rewrite app_nil_r.
  - destruct (fetch_sitemap_fails "sitemap" child session u
                (Hall u child (or_introl eq_refl))) as [msg Hf].
    destruct (IH (fun v c Hc => Hall v c (or_intror Hc)) acc
                (u ++ [Http (GET child 10 false true); Log ERROR msg])%list)
      as (u' & Hfold & Hn).
    exists u'. cbn [for_fold map]. unfold bind at 1.
    unfold check_sitemap at 1. unfold bind at 1. rewrite Hf.
    unfold ret at 1. split; [exact Hfold|].
    rewrite Hn, net_calls_app. simpl. now rewrite <- app_assoc.
Qed.

(** X25.  A child sitemap that cannot be fetched is skipped.  When the main
    sitemap is fetched and none of the child sitemaps it lists can be, the
    run asks for the main sitemap and for each child in turn, starts no
    batch, and goes on to write the report for the empty list. *)
Theorem check_all_pages_children_fail (line : string) (session : Session)
    (t : trace) (response : Response) :
  strip line <> "" ->
  session t (GET (strip line) 10 false true) = Ok response ->
  ~ (400 <= status_code response < 600)%Z ->
  (forall v child,
      In child (map strip (find_all_loc_text (content response))) ->
      fetch_fails session v child) ->
  exists t1,
    check_all_pages line session t
    = save_to_csv [] "broken_images_all_pages" t1
    /\ net_calls t1
       = (net_calls t
          ++ GET (strip line) 10 false true
             :: map (fun c => GET c 10 false true)
                    (map strip (find_all_loc_text (content response))))%list.
Proof.
  intros Hline Hroot Hstatus Hall. unfold check_all_pages.
  apply String.eqb_neq in Hline. rewrite Hline.
  unfold bind at 1.
  unfold fetch_sitemap, try_except, session_get, send.
  unfold bind at 1. rewrite Hroot. unfold bind at 1.
  rewrite (raise_for_status_accepts _ _ Hstatus). unfold ret at 1.
  unfold bind at 1. unfold logging_info at 1, emit at 1.
  unfold bind at 1.
  match goal with
  | |- context [for_fold ?cs [] (check_sitemap session) ?u] =>
      destruct (check_sitemaps_all_fail session cs Hall [] u)
        as (u' & Hfold & Hn)
  end.
  rewrite Hfold.
  unfold bind at 1. unfold logging_info at 1, emit at 1.
  eexists. split; [reflexivity|].
  rewrite net_calls_log, Hn, !net_calls_app. simpl.
  now rewrite app_nil_r, <- app_assoc.
Qed.

(** ** One image, from source to record *)

Lemma check_and_record_checked url soup session acc src resolved stored t
    verdict t3 :
  urljoin url src = Ok resolved ->
  shorten_data_uri resolved = Ok stored ->
  check_image stored session
    (t ++ [Log DEBUG ("Found image: " ++ resolved)])%list
  = (Ok verdict, t3) ->
  check_and_record url soup session acc src t
  = match verdict with
    | Some reason =>
        if negb (reason =? "") then
          (logging_info ("Flagging broken image: " ++ stored ++ " -> " ++ reason
                         ++ " (Storage: " ++ classify_image_storage stored
                         ++ ")") ;;
           article_id <- lift (get_article_id url) ;;
           ret (acc ++ [ {| Article_ID := article_id;
                            Title := get_title soup;
                            Page_URL := url;
                            Broken_Image_URL := stored;
                            HTTP_Status_Code := reason;
                            Storage_Location := classify_image_storage stored
                         |} ])%list) t3
        else (Ok acc, t3)
    | None => (Ok acc, t3)
    end.
Proof.
  intros Hjoin Hshort Hcheck. unfold check_and_record.
  unfold bind at 1, lift at 1. rewrite Hjoin.
  unfold bind at 1, logging_debug at 1, emit at 1.
  unfold bind at 1, lift at 1. rewrite Hshort.
  unfold bind at 1. rewrite Hcheck.
  destruct verdict as [reason|]; [|reflexivity].
  destruct (negb (reason =? "")); reflexivity.
Qed.

(** X28.  An image on an allowed host whose HEAD answers with a status in
    200-299 leaves no record: the loop body returns the list it was given,
    after that one request. *)
Theorem passing_image_leaves_no_record (url : string) (soup : Soup)
    (session : Session) (acc : list ImageRecord)
    (src resolved stored : string) (t t1 : trace) (r1 : Response) :
  urljoin url src = Ok resolved ->
  shorten_data_uri resolved = Ok stored ->
  is_allowed_domain stored
    (t ++ [Log DEBUG ("Found image: " ++ resolved)])%list = (Ok true, t1) ->
  session t1 (HEAD stored 10 true) = Ok r1 ->
  (200 <= status_code r1 <= 299)%Z ->
  fst (check_and_record url soup session acc src t) = Ok acc
  /\ net_calls (snd (check_and_record url soup session acc src t))
     = (net_calls t ++ [HEAD stored 10 true])%list.
Proof.
  intros Hjoin Hshort Hallowed Hhead Hstatus.
  assert (H405 : status_code r1 <> 405%Z) by lia.
  destruct (check_image_head_answers _ _ _ _ _ Hallowed Hhead H405)
    as (verdict & t3 & Hc & Hn & Hpass & _).
  rewrite (Hpass Hstatus) in Hc.
  rewrite (check_and_record_checked _ soup _ acc _ _ _ _ _ _ Hjoin Hshort Hc).
  cbn [fst snd]. split; [reflexivity|].
  now rewrite Hn, net_calls_log.
Qed.

(** X29.  An image on an allowed host whose HEAD answers with a status
    outside 200-299 other than 405 gives exactly one record, appended to the
    list: its reason is ["HTTP <status>"], its URL the shortened URL and its
    storage location the classification of that URL. *)
Theorem failing_image_is_recorded (url : string) (soup : Soup)
    (session : Session) (acc : list ImageRecord)
    (src resolved stored article_id : string) (t t1 : trace) (r1 : Response) :
  urljoin url src = Ok resolved ->
  shorten_data_uri resolved = Ok stored ->
  is_allowed_domain stored
    (t ++ [Log DEBUG ("Found image: " ++ resolved)])%list = (Ok true, t1) ->
  session t1 (HEAD stored 10 true) = Ok r1 ->
  ~ (200 <= status_code r1 <= 299)%Z ->
  status_code r1 <> 405%Z ->
  get_article_id url = Ok article_id ->
  fst (check_and_record url soup session acc src t)
  = Ok (acc ++ [ {| Article_ID := article_id;
                    Title := get_title soup;
                    Page_URL := url;
                    Broken_Image_URL := stored;
                    HTTP_Status_Code := "HTTP " ++ str_of_Z (status_code r1);
                    Storage_Location := classify_image_storage stored |} ])%list
  /\ net_calls (snd (check_and_record url soup session acc src t))
     = (net_calls t ++ [HEAD stored 10 true])%list.
Proof.
  intros Hjoin Hshort Hallowed Hhead Hstatus H405 Haid.
  destruct (check_image_head_answers _ _ _ _ _ Hallowed Hhead H405)
    as (verdict & t3 & Hc & Hn & _ & Hfail).
  rewrite (Hfail Hstatus) in Hc.
  rewrite (check_and_record_checked _ soup _ acc _ _ _ _ _ _ Hjoin Hshort Hc).
  change (negb ("HTTP " ++ str_of_Z (status_code r1) =? "")) with true.
  cbv iota. rewrite Haid.
  unfold bind, logging_info, emit, lift, ret. cbn [fst snd].
  split; [reflexivity|].
  now rewrite net_calls_log, Hn, net_calls_log.
Qed.

End Script.

(** * Worked examples *)

Import Env.

(** ** C1 *)

Example classify_examples :
  classify_image_storage "https://bucket.S3.amazonaws.com/wp-content/a.png"
  = "Amazon Web Services"
  /\ classify_image_storage "https://site.example/WP-Content/jira.png" = "JIRA"
  /\ classify_image_storage "https://cdn.example.com/a.png" = "Other".
Proof. repeat split. Qed.

(** ** C2 *)



(** With userinfo or a port in the authority the test reads more than the
    host. *)
Example is_allowed_domain_userinfo :
  fst (is_allowed_domain accept_bracketed default_domains
         "http://example.com@evil.net/x.png" []) = Ok true.
Proof. reflexivity. Qed.

(** ** C3 *)

Lemma check_image_disallowed_witness :
  is_allowed_domain accept_bracketed default_domains "http://evil.net/x.png" []
  = (Ok false,
     [Log DEBUG
        "Domain check for http://evil.net/x.png -> domain: evil.net, allowed: False"])
  /\ exists t2,
       check_image accept_bracketed default_domains "http://evil.net/x.png"
         (always 200 "") []
       = (Ok (Some "CSP Violation"), t2)
       /\ net_calls t2 = net_calls [].
Proof.
  split; [reflexivity|].
  apply (check_image_disallowed accept_bracketed default_domains
           "http://evil.net/x.png" (always 200 "") []
           [Log DEBUG
              "Domain check for http://evil.net/x.png -> domain: evil.net, allowed: False"]).
  reflexivity.
Defined.

(** ** C4 *)

Lemma check_image_head_then_get_witness :
  is_allowed_domain accept_bracketed default_domains cdn_image []
  = (Ok true, cdn_image_allowed)
  /\ head_405_get 405 cdn_image_allowed (HEAD cdn_image 10 true)
     = Ok method_not_allowed
  /\ (exists res t3,
        check_image accept_bracketed default_domains cdn_image
          (head_405_get 405) []
        = (res, t3)
        /\ net_calls t3 = [HEAD cdn_image 10 true; GET cdn_image 10 true true]
        /\ res = Ok (Some "HTTP 405")).
Proof.
  split; [reflexivity|]. split; [reflexivity|].
  destruct (check_image_head_then_get accept_bracketed default_domains
              cdn_image (head_405_get 405) [] cdn_image_allowed
              method_not_allowed eq_refl eq_refl) as [H405 _].
  destruct (H405 eq_refl) as (res & t3 & Hc & Hn & Hv).
  exists res, t3. split; [exact Hc|]. split; [exact Hn|].
  destruct (Hv {| status_code := 405; reason := ""; resp_url := cdn_image;
                  content := "" |} eq_refl) as (verdict & -> & _ & Hd).
  rewrite Hd; [reflexivity|]. simpl. lia.
Defined.

Example check_image_passes :
  fst (check_image accept_bracketed default_domains
         "https://cdn.example.com/a.png" (head_405_get 204) []) = Ok None
  /\ fst (check_image accept_bracketed default_domains
            "https://cdn.example.com/a.png" (always 404 "") [])
     = Ok (Some "HTTP 404")
  /\ fst (check_image accept_bracketed default_domains
            "https://cdn.example.com/a.png" unreachable [])
     = Ok (Some "Network Error: Connection refused").
Proof. repeat split. Qed.

(** ** C5 *)

(** A base64 data URI with a payload of 50 characters is stored whole when
    it does not start with the very characters ["data:image"]: with the
    scheme in capitals, which the classifier still labels a base64 image,
    or with another media type. *)
Lemma shorten_data_uri_counterexample :
  split1 "," data_upper_src
  = ["DATA:image/png;base64";
     "0123456789abcdefghijABCDEFGHIJ0123456789abcdefghij"]
  /\ 40 < String.length "0123456789abcdefghijABCDEFGHIJ0123456789abcdefghij"
  /\ urljoin_absolute article data_upper_src = Ok data_upper_src
  /\ shorten_data_uri data_upper_src = Ok data_upper_src
  /\ shorten_data_uri data_upper_src
     <> Ok "DATA:image/png;base64,0123456789abcdefghij...0123456789abcdefghij"
  /\ fst (scrape_and_check_images accept_bracketed urljoin_absolute string
            lines_parse lines_select no_title default_domains article
            (always 200 data_upper_src) [])
     = Ok [data_upper_record]
  /\ shorten_data_uri data_text_src = Ok data_text_src.
Proof.
  split; [reflexivity|]. split; [simpl; lia|]. split; [reflexivity|].
  split; [reflexivity|]. split; [discriminate|]. split; reflexivity.
Qed.

Example shorten_examples :
  shorten_data_uri
    "data:image/png;base64,0123456789abcdefghijABCDEFGHIJKLMNOPQRSTUVWXYZ9876543210"
  = Ok "data:image/png;base64,0123456789abcdefghij...QRSTUVWXYZ9876543210"
  /\ shorten_data_uri
       "data:image/png;base64,0123456789abcdefghij0123456789abcdefghij"
     = Ok "data:image/png;base64,0123456789abcdefghij0123456789abcdefghij"
  /\ shorten_data_uri "https://cdn.example.com/a,b.png"
     = Ok "https://cdn.example.com/a,b.png".
Proof. repeat split. Qed.

(** ** C6 *)

Lemma record_storage_is_classification_witness :
  scrape_and_check_images accept_bracketed urljoin_absolute string lines_parse
    lines_select no_title default_domains article (always 200 page_evil) []
  = (Ok [evil_record], evil_trace)
  /\ Forall
       (fun r =>
          Storage_Location r = classify_image_storage (Broken_Image_URL r)
          /\ exists src resolved,
               urljoin_absolute article src = Ok resolved
               /\ shorten_data_uri resolved = Ok (Broken_Image_URL r))
       [evil_record].
Proof.
  split; [reflexivity|].
  apply (record_storage_is_classification accept_bracketed urljoin_absolute
           string lines_parse lines_select no_title default_domains article
           (always 200 page_evil) [] evil_trace [evil_record]).
  reflexivity.
Defined.

(** ** C7 *)

(** A page answered with status 300 is parsed like any other: the fetch is
    not a failure for [raise_for_status], and the page yields a record. *)
Lemma scrape_status_300_counterexample :
  ~ (200 <= 300 <= 299)%Z
  /\ fst (scrape_and_check_images accept_bracketed urljoin_absolute string
            lines_parse lines_select no_title default_domains article
            (always 300 page_evil) [])
     = Ok [evil_record].
Proof. split; [lia|reflexivity]. Qed.

Lemma scrape_failed_fetch_witness :
  fetch_fails (always 404 page_evil) [Sleep 1] article
  /\ fetch_fails unreachable [Sleep 1] article
  /\ (exists msg,
        scrape_and_check_images accept_bracketed urljoin_absolute string
          lines_parse lines_select no_title default_domains article
          (always 404 page_evil) []
        = (Ok [], [Sleep 1; Http (GET article 10 false true); Log ERROR msg]))
  /\ (exists msg,
        scrape_and_check_images accept_bracketed urljoin_absolute string
          lines_parse lines_select no_title default_domains article
          unreachable []
        = (Ok [], [Sleep 1; Http (GET article 10 false true); Log ERROR msg])).
Proof.
  assert (H404 : fetch_fails (always 404 page_evil) [Sleep 1] article).
  { right. eexists. split; [reflexivity|]. simpl. lia. }
  assert (Hdown : fetch_fails unreachable [Sleep 1] article).
  { left. eexists. reflexivity. }
  split; [exact H404|]. split; [exact Hdown|]. split.
  - exact (proj1 (scrape_failed_fetch accept_bracketed urljoin_absolute string
                    lines_parse lines_select no_title default_domains article
                    (always 404 page_evil) [] H404)).
  - exact (proj1 (scrape_failed_fetch accept_bracketed urljoin_absolute string
                    lines_parse lines_select no_title default_domains article
                    unreachable [] Hdown)).
Defined.

(** ** C8 *)

(** C8.  The directory is created before the [try] block is entered: when
    [mkdir] raises, the exception leaves [save_to_csv], nothing is logged,
    and [check_single_page] ends with it.  A failure of a write, by
    contrast, is caught and logged. *)
Theorem save_to_csv_mkdir_failure_escapes :
  save_to_csv "reports/broken_images" read_only noon []
    "broken_images_single_page" []
  = (Raise (OSError "[Errno 13] Permission denied"),
     [Fs (Mkdir "reports/broken_images" true true)])
  /\ fst (check_single_page accept_bracketed urljoin_absolute string
            lines_parse lines_select no_title default_domains
            "reports/broken_images" read_only noon article unreachable [])
     = Raise (OSError "[Errno 13] Permission denied")
  /\ exists t0,
       save_to_csv "reports/broken_images" disk_full noon []
         "broken_images_single_page" []
       = (Ok tt,
          (t0 ++ [Log ERROR
                    "Failed to save CSV file. Error: [Errno 28] No space left on device"])%list).
Proof.
  split; [|split].
  - now apply save_to_csv_mkdir_raises.
  - reflexivity.
  - eexists [_; _; _; _]. reflexivity.
Qed.

(** ** C9 *)

(** A [data:image] URL in which ["s3.amazonaws.com"] occurs is classified
    by that pattern, the first of the table. *)
Lemma data_image_s3_counterexample :
  startswith "data:image/png;base64,s3.amazonaws.com" "data:image" = true
  /\ shorten_data_uri "data:image/png;base64,s3.amazonaws.com"
     = Ok "data:image/png;base64,s3.amazonaws.com"
  /\ fst (check_image accept_bracketed default_domains
            "data:image/png;base64,s3.amazonaws.com" unreachable [])
     = Ok (Some "CSP Violation")
  /\ classify_image_storage "data:image/png;base64,s3.amazonaws.com"
     = "Amazon Web Services".
Proof. repeat split. Qed.

Lemma default_domains_nonempty : ~ In "" default_domains.
Proof. intros [H|[H|[]]]; discriminate. Qed.

Lemma data_image_flagged_witness :
  urljoin_absolute article data_src = Ok data_src
  /\ startswith data_src "data:image" = true
  /\ shorten_data_uri data_src = Ok data_stored
  /\ ~ In "" default_domains
  /\ get_article_id accept_bracketed article = Ok "12"
  /\ (exists r t',
        check_and_record accept_bracketed urljoin_absolute string no_title
          default_domains article data_src (always 200 "") [] data_src []
        = (Ok [r], t')
        /\ net_calls t' = []
        /\ Broken_Image_URL r = data_stored
        /\ HTTP_Status_Code r = "CSP Violation"
        /\ Storage_Location r = "Base64 Encoded Image").
Proof.
  split; [reflexivity|]. split; [reflexivity|]. split; [reflexivity|].
  split; [exact default_domains_nonempty|]. split; [reflexivity|].
  destruct (data_image_flagged accept_bracketed urljoin_absolute string
              no_title default_domains article data_src (always 200 "") []
              data_src data_src data_stored "12" []
              eq_refl eq_refl eq_refl default_domains_nonempty eq_refl)
    as (_ & _ & (r & t' & Hc & Hn & Hu & Hr & Hs) & Hclass & _).
  exists r, t'. split; [exact Hc|]. split; [exact Hn|].
  split; [exact Hu|]. split; [exact Hr|].
  rewrite Hs. apply Hclass. reflexivity.
Defined.

(** ** C10 *)

Lemma scrape_data_image_without_comma_witness :
  always 200 page_no_comma [Sleep 1] (GET article 10 false true)
  = Ok (ok_response page_no_comma)
  /\ ~ (400 <= 200 < 600)%Z
  /\ lines_select (lines_parse page_no_comma "html.parser")
       ".article-detail-card-content" = Some ["data:image/png"]
  /\ urljoin_absolute article "data:image/png" = Ok "data:image/png"
  /\ startswith "data:image/png" "data:image" = true
  /\ has_char "," "data:image/png" = false
  /\ exists t',
       scrape_and_check_images accept_bracketed urljoin_absolute string
         lines_parse lines_select no_title default_domains article
         (always 200 page_no_comma) []
       = (Raise (ValueError "not enough values to unpack (expected 2, got 1)"),
          t').
Proof.
  assert (Hs : ~ (400 <= 200 < 600)%Z) by lia.
  split; [reflexivity|]. split; [exact Hs|]. split; [reflexivity|].
  split; [reflexivity|]. split; [reflexivity|]. split; [reflexivity|].
  exact (proj2 (scrape_data_image_without_comma accept_bracketed
                  urljoin_absolute string lines_parse lines_select no_title
                  default_domains article (always 200 page_no_comma) []
                  (ok_response page_no_comma) [] [] "data:image/png"
                  "data:image/png" eq_refl Hs eq_refl eq_refl eq_refl eq_refl)
               eq_refl).
Defined.

(** * Further properties across configurations *)

(** X26.  The letter case of the allow-list does not matter: the list with
    every entry lowercased gives the same answer, and the same log line,
    for every URL. *)
Theorem is_allowed_domain_allow_list_case
    (check : string -> result unit) (allowed : list string) (url : string)
    (t : trace) :
  is_allowed_domain check (map lower allowed) url t
  = is_allowed_domain check allowed url t.
Proof.
  unfold is_allowed_domain, bind, lift.
  destruct (urlparse check url) as [parsed|e]; [|reflexivity].
  assert (H : forall domain,
             existsb (fun a => contains (lower a) domain) (map lower allowed)
             = existsb (fun a => contains (lower a) domain) allowed).
  { intros domain. induction allowed as [|a allowed IH]; simpl;
      [reflexivity|]. now rewrite lower_idempotent, IH. }
  now rewrite H.
Qed.

(** X27.  Adding entries to the allow-list never turns an allowed URL into
    a disallowed one. *)
Theorem is_allowed_domain_monotone
    (check : string -> result unit) (allowed allowed' : list string)
    (url : string) (t : trace) :
  incl allowed allowed' ->
  fst (is_allowed_domain check allowed url t) = Ok true ->
  fst (is_allowed_domain check allowed' url t) = Ok true.
Proof.
  intros Hincl. unfold is_allowed_domain, bind, lift.
  destruct (urlparse check url) as [parsed|e]; [|discriminate].
  unfold logging_debug, emit, ret. cbn [fst]. intros H.
  injection H as H. f_equal.
  apply existsb_exists in H as (a & Ha & Hc).
  apply existsb_exists. exists a. split; [now apply Hincl|exact Hc].
Qed.

(** * Worked examples for the further properties *)

Lemma shorten_data_uri_idempotent_witness :
  shorten_data_uri data_src = Ok data_stored
  /\ shorten_data_uri data_stored = Ok data_stored.
Proof.
  split; [reflexivity|].
  apply (shorten_data_uri_idempotent data_src data_stored). reflexivity.
Defined.

Lemma shorten_data_uri_length_witness :
  startswith data_src "data:image" = true
  /\ shorten_data_uri data_src = Ok data_stored
  /\ exists i,
       find "," data_src = Some i
       /\ String.length data_stored <= i + 44
       /\ String.length data_stored <= String.length data_src + 2
       /\ (i + 44 <= String.length data_src ->
           String.length data_stored <= String.length data_src).
Proof.
  split; [reflexivity|]. split; [reflexivity|].
  apply (shorten_data_uri_length data_src data_stored); reflexivity.
Defined.

Example shorten_can_lengthen :
  shorten_data_uri
    "data:image/png;base64,0123456789abcdefghijX0123456789abcdefghij"
  = Ok "data:image/png;base64,0123456789abcdefghij...0123456789abcdefghij".
Proof. reflexivity. Qed.

Lemma unreachable_raises_request_exceptions :
  forall (u : trace) (r : request) (e : exn),
    unreachable u r = Raise e -> is_RequestException e = true.
Proof. intros u r e H. now injection H as <-. Qed.

Lemma check_image_contains_failures_witness :
  (exists parsed, urlparse accept_bracketed cdn_image = Ok parsed)
  /\ (forall u r e, unreachable u r = Raise e -> is_RequestException e = true)
  /\ exists verdict,
       fst (check_image accept_bracketed default_domains cdn_image
              unreachable []) = Ok verdict
       /\ verdict <> Some "".
Proof.
  assert (Hp : exists parsed, urlparse accept_bracketed cdn_image = Ok parsed)
    by (eexists; reflexivity).
  split; [exact Hp|]. split; [exact unreachable_raises_request_exceptions|].
  exact (check_image_contains_failures accept_bracketed default_domains
           cdn_image unreachable [] Hp unreachable_raises_request_exceptions).
Defined.

Lemma check_image_head_failure_witness :
  is_allowed_domain accept_bracketed default_domains cdn_image []
  = (Ok true, cdn_image_allowed)
  /\ unreachable cdn_image_allowed (HEAD cdn_image 10 true)
     = Raise (RequestException "Connection refused")
  /\ net_calls (snd (check_image accept_bracketed default_domains cdn_image
                       unreachable []))
     = [HEAD cdn_image 10 true]
  /\ fst (check_image accept_bracketed default_domains cdn_image
            unreachable [])
     = Ok (Some "Network Error: Connection refused").
Proof.
  split; [reflexivity|]. split; [reflexivity|].
  exact (check_image_head_failure accept_bracketed default_domains cdn_image
           unreachable [] cdn_image_allowed
           (RequestException "Connection refused") eq_refl eq_refl).
Defined.

Lemma scrape_records_follow_images_witness :
  fst (scrape_and_check_images accept_bracketed urljoin_absolute string
         lines_parse lines_select no_title default_domains article
         (serves article page_two 200) [])
  = Ok [evil_record]
  /\ ([evil_record] = []
      \/ exists response images kept,
           serves article page_two 200 [Sleep 1] (GET article 10 false true)
           = Ok response
           /\ lines_select (lines_parse (content response) "html.parser")
                ".article-detail-card-content" = Some images
           /\ subseq kept images
           /\ Forall2 (record_from accept_bracketed urljoin_absolute string
                         no_title article
                         (lines_parse (content response) "html.parser"))
                kept [evil_record]
           /\ List.length [evil_record] <= List.length images).
Proof.
  split; [reflexivity|].
  apply (scrape_records_follow_images accept_bracketed urljoin_absolute string
           lines_parse lines_select no_title default_domains article
           (serves article page_two 200) []
           (snd (scrape_and_check_images accept_bracketed urljoin_absolute
                   string lines_parse lines_select no_title default_domains
                   article (serves article page_two 200) []))
           [evil_record]).
  reflexivity.
Defined.

Lemma scrape_records_share_page_witness :
  fst (scrape_and_check_images accept_bracketed urljoin_absolute string
         lines_parse lines_select no_title default_domains article
         (serves article page_two 404) [])
  = Ok [evil_record; cdn_record]
  /\ Forall (fun r => Page_URL r = article
                      /\ get_article_id accept_bracketed article
                         = Ok (Article_ID r))
            [evil_record; cdn_record]
  /\ forall r1 r2,
       In r1 [evil_record; cdn_record] -> In r2 [evil_record; cdn_record] ->
       Title r1 = Title r2.
Proof.
  split; [reflexivity|].
  apply (scrape_records_share_page accept_bracketed urljoin_absolute string
           lines_parse lines_select no_title default_domains article
           (serves article page_two 404) []
           (snd (scrape_and_check_images accept_bracketed urljoin_absolute
                   string lines_parse lines_select no_title default_domains
                   article (serves article page_two 404) []))
           [evil_record; cdn_record]).
  reflexivity.
Defined.

Lemma scrape_without_images_witness :
  always 200 page_bare [Sleep 1] (GET article 10 false true)
  = Ok (ok_response page_bare)
  /\ ~ (400 <= 200 < 600)%Z
  /\ lines_select (lines_parse page_bare "html.parser")
       ".article-detail-card-content" = None
  /\ exists msg,
       scrape_and_check_images accept_bracketed urljoin_absolute string
         lines_parse lines_select no_title default_domains article
         (always 200 page_bare) []
       = (Ok [], [Sleep 1; Http (GET article 10 false true); Log DEBUG msg]).
Proof.
  assert (Hs : ~ (400 <= 200 < 600)%Z) by lia.
  split; [reflexivity|]. split; [exact Hs|]. split; [reflexivity|].
  exact (scrape_without_images accept_bracketed urljoin_absolute string
           lines_parse lines_select no_title default_domains article
           (always 200 page_bare) [] (ok_response page_bare)
           eq_refl Hs (or_introl eq_refl)).
Defined.


Lemma all_ok_succeeds : forall (v : trace) (op : fs_op), all_ok v op = Ok tt.
Proof. reflexivity. Qed.

(** What [pathlib] makes of some directories and names. *)
Example pathlib_examples :
  map (fun dn => let p := Pathlib.truediv (Pathlib.Path (fst dn)) (snd dn) in
                 (Pathlib.str p, Pathlib.str (Pathlib.parent p)))
    [("reports/broken_images", "r.csv"); (".", "r.csv"); ("/", "r.csv");
     ("out//2025/", "r.csv"); ("./out/.", "r.csv"); ("//srv", "r.csv");
     ("out", "a/r.csv"); ("out", "/tmp/r.csv")]
  = [("reports/broken_images/r.csv", "reports/broken_images");
     ("r.csv", "."); ("/r.csv", "/");
     ("out/2025/r.csv", "out/2025"); ("out/r.csv", "out");
     ("//srv/r.csv", "//srv");
     ("out/a/r.csv", "out/a"); ("/tmp/r.csv", "/tmp")].
Proof. reflexivity. Qed.

Lemma save_to_csv_report_witness :
  (forall v op, all_ok v op = Ok tt)
  /\ (let file := "broken_images_all_pages_20250526_120000.csv" in
      save_to_csv "." all_ok noon
        [evil_record; cdn_record] "broken_images_all_pages" []
      = (Ok tt,
         [Fs (Mkdir "." true true); Fs (Open file "w");
          Fs (Write file (csv_row fieldnames));
          Fs (Write file (csv_row (dict_to_list evil_record)));
          Fs (Write file (csv_row (dict_to_list cdn_record)));
          Fs (Close file); Log INFO ("Data saved to " ++ file ++ ".")])).
Proof.
  split; [exact all_ok_succeeds|].
  exact (save_to_csv_report "." all_ok noon
           [evil_record; cdn_record] "broken_images_all_pages" []
           all_ok_succeeds).
Defined.

Lemma save_to_csv_closes_file_witness :
  disk_full [] (Mkdir "reports/broken_images" true true) = Ok tt
  /\ disk_full [Fs (Mkdir "reports/broken_images" true true)]
       (Open "reports/broken_images/broken_images_all_pages_20250526_120000.csv"
             "w") = Ok tt
  /\ exists written l msg,
       save_to_csv "reports/broken_images" disk_full noon [evil_record]
         "broken_images_all_pages" []
       = (Ok tt,
          ([Fs (Mkdir "reports/broken_images" true true);
            Fs (Open
                  "reports/broken_images/broken_images_all_pages_20250526_120000.csv"
                  "w")]
           ++ written
           ++ [Fs (Close
                     "reports/broken_images/broken_images_all_pages_20250526_120000.csv");
               Log l msg])%list)
       /\ Forall
            (fun ev =>
               exists line,
                 ev = Fs (Write
                            "reports/broken_images/broken_images_all_pages_20250526_120000.csv"
                            line))
            written.
Proof.
  split; [reflexivity|]. split; [reflexivity|].
  exact (save_to_csv_closes_file "reports/broken_images" disk_full noon
           [evil_record] "broken_images_all_pages" [] eq_refl eq_refl).
Defined.

Lemma save_to_csv_open_fails_witness :
  no_open [] (Mkdir "/" true true) = Ok tt
  /\ no_open [Fs (Mkdir "/" true true)]
       (Open "/broken_images_all_pages_20250526_120000.csv"
             "w")
     = Raise (OSError "[Errno 13] Permission denied")
  /\ save_to_csv "/" no_open noon [evil_record]
       "broken_images_all_pages" []
     = (Ok tt,
        [Fs (Mkdir "/" true true);
         Fs (Open
               "/broken_images_all_pages_20250526_120000.csv"
               "w");
         Log ERROR
           "Failed to save CSV file. Error: [Errno 13] Permission denied"]).
Proof.
  split; [reflexivity|]. split; [reflexivity|].
  exact (save_to_csv_open_fails "/" no_open noon
           [evil_record] "broken_images_all_pages" []
           (OSError "[Errno 13] Permission denied") eq_refl eq_refl).
Defined.

Lemma collect_batch_order_irrelevant_witness :
  Permutation
    [("https://kb.example.com/article/12/install", Ok [evil_record]);
     ("https://kb.example.com/article/13", Raise (ValueError "bad page"));
     ("https://kb.example.com/article/14", Ok [cdn_record])]
    [("https://kb.example.com/article/14", Ok [cdn_record]);
     ("https://kb.example.com/article/12/install", Ok [evil_record]);
     ("https://kb.example.com/article/13", Raise (ValueError "bad page"))]
  /\ exists recs recs',
       fst (collect_batch
              [("https://kb.example.com/article/12/install", Ok [evil_record]);
               ("https://kb.example.com/article/13",
                Raise (ValueError "bad page"));
               ("https://kb.example.com/article/14", Ok [cdn_record])] [] [])
       = Ok recs
       /\ fst (collect_batch
                 [("https://kb.example.com/article/14", Ok [cdn_record]);
                  ("https://kb.example.com/article/12/install",
                   Ok [evil_record]);
                  ("https://kb.example.com/article/13",
                   Raise (ValueError "bad page"))] [] [])
          = Ok recs'
       /\ Permutation recs recs'.
Proof.
  assert (Hp : Permutation
                 [("https://kb.example.com/article/12/install",
                   Ok [evil_record]);
                  ("https://kb.example.com/article/13",
                   Raise (ValueError "bad page"));
                  ("https://kb.example.com/article/14", Ok [cdn_record])]
                 [("https://kb.example.com/article/14", Ok [cdn_record]);
                  ("https://kb.example.com/article/12/install",
                   Ok [evil_record]);
                  ("https://kb.example.com/article/13",
                   Raise (ValueError "bad page"))]).
  { apply Permutation_sym.
    apply (Permutation_cons_app [_; _] [] _). apply Permutation_refl. }
  split; [exact Hp|].
  exact (collect_batch_order_irrelevant _ _ [] [] Hp).
Defined.

Lemma get_article_id_segment_witness :
  urlparse accept_bracketed article
  = Ok {| Urllib.scheme := "https"; Urllib.netloc := "kb.example.com";
          Urllib.path := "/article/12/install"; Urllib.params := "";
          Urllib.query := ""; Urllib.fragment := "" |}
  /\ get_article_id accept_bracketed article = Ok "12"
  /\ get_article_id accept_bracketed "https://kb.example.com/article/"
     = Ok ""
  /\ get_article_id accept_bracketed "https://kb.example.com/docs/12" = Ok "".
Proof.
  split; [reflexivity|]. split; [|split; reflexivity].
  refine (proj1 (proj1 (get_article_id_segment accept_bracketed article _
                          eq_refl) [] "12" ["install"] eq_refl _)).
  intros [].
Defined.

Lemma csv_row_determines_record_witness :
  csv_row (dict_to_list evil_record) = csv_row (dict_to_list evil_record)
  /\ evil_record = evil_record.
Proof.
  split; [reflexivity|].
  exact (csv_row_determines_record evil_record evil_record eq_refl).
Defined.

Lemma article_is_not_blank : strip article <> "".
Proof. discriminate. Qed.

Lemma check_single_page_failed_fetch_witness :
  strip article <> ""
  /\ (forall v op, all_ok v op = Ok tt)
  /\ fetch_fails unreachable
       [Log INFO ("Checking single page: " ++ strip article); Sleep 1]
       (strip article)
  /\ exists msg file,
       check_single_page accept_bracketed urljoin_absolute string lines_parse
         lines_select no_title default_domains "reports/broken_images" all_ok
         noon article unreachable []
       = (Ok tt,
          [Log INFO ("Checking single page: " ++ strip article);
           Sleep 1; Http (GET (strip article) 10 false true);
           Log ERROR msg;
           Log INFO "No broken images found.";
           Fs (Mkdir "reports/broken_images" true true);
           Fs (Open file "w");
           Fs (Write file (csv_row fieldnames));
           Fs (Close file);
           Log INFO ("Data saved to " ++ file ++ ".")]).
Proof.
  assert (Hf : fetch_fails unreachable
                 ([] ++ [Log INFO ("Checking single page: " ++ strip article);
                         Sleep 1])%list
                 (strip article)).
  { left. eexists. reflexivity. }
  split; [exact article_is_not_blank|]. split; [exact all_ok_succeeds|].
  split; [exact Hf|].
  destruct (check_single_page_failed_fetch accept_bracketed urljoin_absolute
              string lines_parse lines_select no_title default_domains
              "reports/broken_images" all_ok noon article unreachable []
              article_is_not_blank all_ok_succeeds Hf)
    as (msg & H).
  exists msg. eexists. exact H.
Defined.

Lemma main_rejects_input_witness :
  ((lower (strip " Both ") <> "single" /\ lower (strip " Both ") <> "all")
   \/ strip article = "")
  /\ ((lower (strip " ALL ") <> "single" /\ lower (strip " ALL ") <> "all")
      \/ strip "   " = "")
  /\ (exists msg,
        main accept_bracketed urljoin_absolute string lines_parse lines_select
          no_title default_domains "reports/broken_images" all_ok noon
          lines_locs idle_pool " Both " article unreachable []
        = (Ok tt, [Log ERROR msg]))
  /\ (exists msg,
        main accept_bracketed urljoin_absolute string lines_parse lines_select
          no_title default_domains "reports/broken_images" all_ok noon
          lines_locs idle_pool " ALL " "   " unreachable []
        = (Ok tt, [Log ERROR msg])).
Proof.
  assert (H1 : (lower (strip " Both ") <> "single"
                /\ lower (strip " Both ") <> "all")
               \/ strip article = "").
  { left. split; discriminate. }
  assert (H2 : (lower (strip " ALL ") <> "single"
                /\ lower (strip " ALL ") <> "all")
               \/ strip "   " = "").
  { right. reflexivity. }
  split; [exact H1|]. split; [exact H2|]. split.
  - exact (main_rejects_input accept_bracketed urljoin_absolute string
             lines_parse lines_select no_title default_domains
             "reports/broken_images" all_ok noon lines_locs idle_pool
             " Both " article unreachable [] H1).
  - exact (main_rejects_input accept_bracketed urljoin_absolute string
             lines_parse lines_select no_title default_domains
             "reports/broken_images" all_ok noon lines_locs idle_pool
             " ALL " "   " unreachable [] H2).
Defined.

Lemma sitemap_root_is_not_blank : strip sitemap_root <> "".
Proof. discriminate. Qed.

Lemma check_all_pages_root_failure_witness :
  strip sitemap_root <> ""
  /\ fetch_fails (always 503 "") [] (strip sitemap_root)
  /\ exists msg,
       check_all_pages "reports/broken_images" all_ok noon lines_locs
         idle_pool sitemap_root (always 503 "") []
       = (Ok tt,
          [Http (GET (strip sitemap_root) 10 false true); Log ERROR msg]).
Proof.
  assert (Hf : fetch_fails (always 503 "") [] (strip sitemap_root)).
  { right. eexists. split; [reflexivity|]. simpl. lia. }
  split; [exact sitemap_root_is_not_blank|]. split; [exact Hf|].
  exact (check_all_pages_root_failure "reports/broken_images" all_ok noon
           lines_locs idle_pool sitemap_root (always 503 "") []
           sitemap_root_is_not_blank Hf).
Defined.

Lemma root_only_children_fail :
  forall (v : trace) (child : string),
    In child (map strip (lines_locs (content root_response))) ->
    fetch_fails root_only v child.
Proof.
  intros v child [<-|[<-|[]]]; right; eexists;
    (split; [reflexivity|simpl; lia]).
Qed.

Lemma check_all_pages_children_fail_witness :
  strip sitemap_root <> ""
  /\ root_only [] (GET (strip sitemap_root) 10 false true) = Ok root_response
  /\ ~ (400 <= status_code root_response < 600)%Z
  /\ (forall v child,
        In child (map strip (lines_locs (content root_response))) ->
        fetch_fails root_only v child)
  /\ exists t1,
       check_all_pages "reports/broken_images" all_ok noon lines_locs
         idle_pool sitemap_root root_only []
       = save_to_csv "reports/broken_images" all_ok noon []
           "broken_images_all_pages" t1
       /\ net_calls t1
          = [GET sitemap_root 10 false true;
             GET "https://kb.example.com/sitemap1.xml" 10 false true;
             GET "https://kb.example.com/sitemap2.xml" 10 false true].
Proof.
  assert (Hs : ~ (400 <= status_code root_response < 600)%Z)
    by (simpl; lia).
  split; [exact sitemap_root_is_not_blank|]. split; [reflexivity|].
  split; [exact Hs|]. split; [exact root_only_children_fail|].
  exact (check_all_pages_children_fail "reports/broken_images" all_ok noon
           lines_locs idle_pool sitemap_root root_only [] root_response
           sitemap_root_is_not_blank eq_refl Hs root_only_children_fail).
Defined.

Lemma is_allowed_domain_monotone_witness :
  incl ["cdn.example.com"] default_domains
  /\ fst (is_allowed_domain accept_bracketed ["cdn.example.com"] cdn_image [])
     = Ok true
  /\ fst (is_allowed_domain accept_bracketed default_domains cdn_image [])
     = Ok true.
Proof.
  assert (Hi : incl ["cdn.example.com"] default_domains).
  { intros d [<-|[]]. right. now left. }
  split; [exact Hi|]. split; [reflexivity|].
  exact (is_allowed_domain_monotone accept_bracketed ["cdn.example.com"]
           default_domains cdn_image [] Hi eq_refl).
Defined.

Example allow_list_entries :
  get_allowed_domains " KB.example.com , img.example.org "
  = ["KB.example.com"; "img.example.org"]
  /\ get_allowed_domains "   " = default_domains
  /\ fst (is_allowed_domain accept_bracketed
            (get_allowed_domains " KB.example.com , img.example.org ")
            "https://kb.EXAMPLE.com/a.png" []) = Ok true.
Proof. repeat split. Qed.

Lemma passing_image_leaves_no_record_witness :
  urljoin_absolute article cdn_image = Ok cdn_image
  /\ shorten_data_uri cdn_image = Ok cdn_image
  /\ is_allowed_domain accept_bracketed default_domains cdn_image
       [Log DEBUG ("Found image: " ++ cdn_image)]
     = (Ok true, cdn_image_found)
  /\ always 200 "" cdn_image_found (HEAD cdn_image 10 true)
     = Ok (cdn_answer 200)
  /\ (200 <= status_code (cdn_answer 200) <= 299)%Z
  /\ fst (check_and_record accept_bracketed urljoin_absolute string no_title
            default_domains article page_two (always 200 "") [evil_record]
            cdn_image [])
     = Ok [evil_record]
  /\ net_calls (snd (check_and_record accept_bracketed urljoin_absolute string
                       no_title default_domains article page_two
                       (always 200 "") [evil_record] cdn_image []))
     = [HEAD cdn_image 10 true].
Proof.
  assert (Hs : (200 <= status_code (cdn_answer 200) <= 299)%Z)
    by (simpl; lia).
  split; [reflexivity|]. split; [reflexivity|]. split; [reflexivity|].
  split; [reflexivity|]. split; [exact Hs|].
  exact (passing_image_leaves_no_record accept_bracketed urljoin_absolute
           string no_title default_domains article page_two (always 200 "")
           [evil_record] cdn_image cdn_image cdn_image [] cdn_image_found
           (cdn_answer 200) eq_refl eq_refl eq_refl eq_refl Hs).
Defined.

Lemma failing_image_is_recorded_witness :
  urljoin_absolute article cdn_image = Ok cdn_image
  /\ shorten_data_uri cdn_image = Ok cdn_image
  /\ is_allowed_domain accept_bracketed default_domains cdn_image
       [Log DEBUG ("Found image: " ++ cdn_image)]
     = (Ok true, cdn_image_found)
  /\ always 404 "" cdn_image_found (HEAD cdn_image 10 true)
     = Ok (cdn_answer 404)
  /\ ~ (200 <= status_code (cdn_answer 404) <= 299)%Z
  /\ status_code (cdn_answer 404) <> 405%Z
  /\ get_article_id accept_bracketed article = Ok "12"
  /\ fst (check_and_record accept_bracketed urljoin_absolute string no_title
            default_domains article page_two (always 404 "") [evil_record]
            cdn_image [])
     = Ok [evil_record; cdn_record]
  /\ net_calls (snd (check_and_record accept_bracketed urljoin_absolute string
                       no_title default_domains article page_two
                       (always 404 "") [evil_record] cdn_image []))
     = [HEAD cdn_image 10 true].
Proof.
  assert (Hs : ~ (200 <= status_code (cdn_answer 404) <= 299)%Z)
    by (simpl; lia).
  assert (H405 : status_code (cdn_answer 404) <> 405%Z) by discriminate.
  split; [reflexivity|]. split; [reflexivity|]. split; [reflexivity|].
  split; [reflexivity|]. split; [exact Hs|]. split; [exact H405|].
  split; [reflexivity|].
  exact (failing_image_is_recorded accept_bracketed urljoin_absolute
           string no_title default_domains article page_two (always 404 "")
           [evil_record] cdn_image cdn_image cdn_image "12" []
           cdn_image_found (cdn_answer 404)
           eq_refl eq_refl eq_refl eq_refl Hs H405 eq_refl).
Defined.
